(** * chat-exporter: the VSCDBQuery reader and its callers

    A shallow embedding of [src/vscdb.py] (class [VSCDBQuery]), of the
    loops of [export] and [discover] in [chat.py] and of the tools of
    [mcp_server.py], with the properties of the specification stated over
    it.

    Python values are an inductive type, Python exceptions an explicit
    result type, the [VSCDBQuery] object a record threaded through the
    methods, and the SQLite file a read-only record of query outcomes. *)

From Stdlib Require Import ZArith List String Ascii Strings.Byte Bool Lia.
From Stdlib Require Import DecimalString.
Import ListNotations.

Local Open Scope string_scope.
Local Open Scope list_scope.

Set Warnings "-register-all".

(* ================================================================== *)
(** * Python values *)
(* ================================================================== *)

(** The values [json.loads] produces and the dictionaries the code builds.
    A [str] is the [string] of its UTF-8 bytes; a [float] is kept as its
    IEEE-754 binary64 bit pattern; a [dict] is an association list in
    insertion order, keyed by strings. *)
Inductive PyVal : Type :=
| PNone
| PBool (b : bool)
| PInt (z : Z)
| PFloat (bits : Z)
| PStr (s : string)
| PList (items : list PyVal)
| PDict (entries : list (string * PyVal)).

(** [type(v).__name__] *)
Definition type_name (v : PyVal) : string :=
  match v with
  | PNone => "NoneType"
  | PBool _ => "bool"
  | PInt _ => "int"
  | PFloat _ => "float"
  | PStr _ => "str"
  | PList _ => "list"
  | PDict _ => "dict"
  end.

(** [bool(v)]: [None], [False], zero, and empty containers are falsy.
    A float is zero when every bit but the sign bit is clear. *)
Definition py_truthy (v : PyVal) : bool :=
  match v with
  | PNone => false
  | PBool b => b
  | PInt z => negb (z =? 0)%Z
  | PFloat bits => negb (Z.land bits (2 ^ 63 - 1) =? 0)%Z
  | PStr s => negb (s =? "")
  | PList l => match l with [] => false | _ :: _ => true end
  | PDict d => match d with [] => false | _ :: _ => true end
  end.

Definition is_none (v : PyVal) : bool :=
  match v with PNone => true | _ => false end.

(** ** Dictionaries *)

Fixpoint dict_get (d : list (string * PyVal)) (k : string) : option PyVal :=
  match d with
  | [] => None
  | (k', v) :: rest => if k' =? k then Some v else dict_get rest k
  end.

(** [k in d] *)
Definition dict_has (d : list (string * PyVal)) (k : string) : bool :=
  match dict_get d k with Some _ => true | None => false end.

(** [d[k] = v]: an existing key keeps its position, a new key goes last. *)
Fixpoint dict_set (d : list (string * PyVal)) (k : string) (v : PyVal)
  : list (string * PyVal) :=
  match d with
  | [] => [(k, v)]
  | (k', v') :: rest =>
      if k' =? k then (k', v) :: rest else (k', v') :: dict_set rest k v
  end.

(** [isinstance(v, dict) and "error" in v]: the in-band error signal every
    method of [VSCDBQuery] uses. *)
Definition is_error_dict (v : PyVal) : bool :=
  match v with
  | PDict d => dict_has d "error"
  | _ => false
  end.

Definition is_dict (v : PyVal) : bool :=
  match v with PDict _ => true | _ => false end.

Definition is_list (v : PyVal) : bool :=
  match v with PList _ => true | _ => false end.

(* ================================================================== *)
(** * Exceptions *)
(* ================================================================== *)

Inductive ExnClass : Type :=
| TypeError
| AttributeError
| KeyError
| JSONDecodeError
| UnicodeDecodeError
| SqliteOperationalError   (* sqlite3.OperationalError *)
| SqliteError              (* any other sqlite3.Error *)
| OtherException.          (* any other subclass of Exception *)

Record PyExn : Type := mkExn { exn_class : ExnClass; exn_msg : string }.

(** [isinstance(e, sqlite3.Error)] *)
Definition is_sqlite_error (e : PyExn) : bool :=
  match exn_class e with
  | SqliteOperationalError | SqliteError => true
  | _ => false
  end.

(** A computation that returns or raises. *)
Inductive Res (A : Type) : Type :=
| Ok (a : A)
| Raise (e : PyExn).

Arguments Ok {A} a.
Arguments Raise {A} e.

Definition bind {A B : Type} (m : Res A) (f : A -> Res B) : Res B :=
  match m with
  | Ok a => f a
  | Raise e => Raise e
  end.

Declare Scope res_scope.
Delimit Scope res_scope with res.
Notation "x <- m ;; k" := (bind m (fun x => k))
  (at level 61, m at next level, right associativity) : res_scope.
Local Open Scope res_scope.

(** ** Attribute access, subscripting and iteration on arbitrary values *)

(** [v.get(k, default)]: only a [dict] has the method. *)
Definition py_get (v : PyVal) (k : string) (default : PyVal) : Res PyVal :=
  match v with
  | PDict d => Ok (match dict_get d k with Some x => x | None => default end)
  | _ => Raise (mkExn AttributeError
                  ("'" ++ type_name v ++ "' object has no attribute 'get'"))
  end.

(** [v[k]] for a string key [k]. *)
Definition py_getitem (v : PyVal) (k : string) : Res PyVal :=
  match v with
  | PDict d =>
      match dict_get d k with
      | Some x => Ok x
      | None => Raise (mkExn KeyError ("'" ++ k ++ "'"))
      end
  | PList _ =>
      Raise (mkExn TypeError "list indices must be integers or slices, not str")
  | PStr _ =>
      Raise (mkExn TypeError "string indices must be integers, not 'str'")
  | _ =>
      Raise (mkExn TypeError
               ("'" ++ type_name v ++ "' object is not subscriptable"))
  end.

(** The characters of a [str]: a new character starts at every byte that is
    not a UTF-8 continuation byte (binary 10xxxxxx). *)
Definition is_continuation (c : ascii) : bool :=
  let n := N_of_ascii c in ((128 <=? n) && (n <? 192))%N.

Fixpoint str_chars_aux (cur : string) (s : string) : list string :=
  match s with
  | EmptyString => [cur]
  | String c rest =>
      if is_continuation c then str_chars_aux (cur ++ String c "") rest
      else cur :: str_chars_aux (String c "") rest
  end.

Definition str_chars (s : string) : list string :=
  match s with
  | EmptyString => []
  | String c rest => str_chars_aux (String c "") rest
  end.

(** [iter(v)], fully unrolled: a list yields its items, a dict its keys, a
    str its characters; the other values are not iterable. *)
Definition py_iter (v : PyVal) : Res (list PyVal) :=
  match v with
  | PList l => Ok l
  | PDict d => Ok (map (fun kv => PStr (fst kv)) d)
  | PStr s => Ok (map PStr (str_chars s))
  | _ => Raise (mkExn TypeError
                  ("'" ++ type_name v ++ "' object is not iterable"))
  end.

(* ================================================================== *)
(** * The SQLite file *)
(* ================================================================== *)

(** What a column of a fetched row can hold ([sqlite3] storage classes):
    [None], [int], [float] (bit pattern), [str], [bytes]. *)
Inductive SqlValue : Type :=
| SqlNull
| SqlInteger (z : Z)
| SqlReal (bits : Z)
| SqlText (s : string)
| SqlBlob (b : list byte).

(** [cursor.execute(...)] followed by [cursor.fetchall()] returns the values
    of the selected column, one per matching row, or raises. *)
Inductive QueryOutcome : Type :=
| Rows (values : list SqlValue)
| QueryRaises (e : PyExn).

(** A database file as the reader sees it: a fixed, read-only snapshot.
    [db_connect] is the exception [sqlite3.connect] raises on it, if any;
    [db_select table key] is the outcome of
    [SELECT value FROM table WHERE [key] = key]. *)
Record Database : Type := mkDatabase {
  db_connect : option PyExn;
  db_select : string -> string -> QueryOutcome
}.

(** The file system: the database found at each path. *)
Definition FileSystem : Type := string -> Database.

(* ================================================================== *)
(** * The VSCDBQuery object *)
(* ================================================================== *)

(** The dictionary [_load_config] returns, for a [config.yml] that gives the
    keys it sets a [str]: always these four keys, each a string. (A value of
    another type is kept by [_load_config] as it is; such a configuration is
    not covered by this record.) *)
Record Config : Type := mkConfig {
  aichat_query_key : string;
  prompts_key : string;
  generations_key : string;
  cfg_table_name : string
}.

(** The values [_load_config] falls back to. *)
Definition default_config : Config :=
  {| aichat_query_key := "composer.composerData";
     prompts_key := "aiService.prompts";
     generations_key := "aiService.generations";
     cfg_table_name := "ItemTable" |}.

(** [self]. [conn] and [cursor] are always set and cleared together, so one
    flag stands for both: [true] when they hold live objects, [false] when
    they are [None]. *)
Record VSCDBQuery : Type := mkQuery {
  db_path : string;
  config : Config;
  table_name : string;
  conn : bool
}.

Definition set_conn (self : VSCDBQuery) (c : bool) : VSCDBQuery :=
  {| db_path := db_path self; config := config self;
     table_name := table_name self; conn := c |}.

(** What [_execute_query] hands back: an error dict, the first row, or
    [None] when no row matched. The row is the 1-tuple [(value,)]. *)
Inductive RowResult : Type :=
| RowError (d : PyVal)
| RowTuple (value : SqlValue)
| RowNone.

(* ================================================================== *)
(** * The library functions *)
(* ================================================================== *)

(** The Python library functions the reader calls.

    - [json_loads] is [json.loads]: it returns the decoded value or raises
      ([json.JSONDecodeError] on malformed text).
    - [bytes_decode] is [bytes.decode("utf-8")]: it returns the text or
      raises [UnicodeDecodeError].
    - [py_repr] is the text an f-string gives a value that is not a [str]. *)
Record Externals : Type := mkExternals {
  json_loads : string -> Res PyVal;
  bytes_decode : list byte -> Res string;
  py_repr : PyVal -> string
}.

(** The [AttributeError] of [self.name] when the object has no attribute
    [name]. *)
Definition no_attribute (name : string) : PyExn :=
  mkExn AttributeError
    ("'VSCDBQuery' object has no attribute '" ++ name ++ "'").

Section Reader.

Variable E : Externals.
Variable fs : FileSystem.

(** [f"{v}"] *)
Definition format (v : PyVal) : string :=
  match v with
  | PStr s => s
  | _ => py_repr E v
  end.

(** [f"{type(value_blob)}"] for the column values that are neither [bytes]
    nor [str]. *)
Definition sql_class_repr (v : SqlValue) : string :=
  match v with
  | SqlNull => "<class 'NoneType'>"
  | SqlInteger _ => "<class 'int'>"
  | SqlReal _ => "<class 'float'>"
  | SqlText _ => "<class 'str'>"
  | SqlBlob _ => "<class 'bytes'>"
  end.

(** ** Connection management *)

(** Both [except] clauses leave [conn] and [cursor] at [None]. *)
Definition _initialize_connection (self : VSCDBQuery) : VSCDBQuery :=
  match db_connect (fs (db_path self)) with
  | None => set_conn self true
  | Some _ => set_conn self false
  end.

(** An error of [conn.close()] is logged; [conn] and [cursor] end as
    [None] either way. *)
Definition close_connection (self : VSCDBQuery) : VSCDBQuery :=
  set_conn self false.

(** [VSCDBQuery(db_path)], with [cfg] what [_load_config] returns. *)
Definition __init__ (cfg : Config) (path : string) : VSCDBQuery :=
  _initialize_connection
    {| db_path := path; config := cfg;
       table_name := cfg_table_name cfg; conn := false |}.

(** ** _execute_query, for the one query the class issues:
    [SELECT value FROM {table_name} WHERE [key] = ?] with [(key_name,)]. *)
Definition _execute_query (self : VSCDBQuery) (key_name : string)
  : RowResult * VSCDBQuery :=
  let self1 := if conn self then self else _initialize_connection self in
  if negb (conn self1) then
    (RowError (PDict [("error", PStr "DB connection failed to re-initialize")]),
     self1)
  else
    match db_select (fs (db_path self1)) (table_name self1) key_name with
    | Rows (row :: _) => (RowTuple row, self1)
    | Rows [] => (RowNone, self1)
    | QueryRaises e =>
        if is_sqlite_error e then
          (RowError (PDict [("error", PStr (exn_msg e));
                            ("db_path", PStr (db_path self1))]), self1)
        else
          (RowError (PDict [("error",
                             PStr ("Unexpected query error: " ++ exn_msg e));
                            ("db_path", PStr (db_path self1))]), self1)
    end.

(** ** get_json_value_for_key *)

(** The [try] block on a row whose value is not [None]. *)
Definition decode_value_blob (key_name : string) (value_blob : SqlValue)
  : Res PyVal :=
  match value_blob with
  | SqlBlob b => value_str <- bytes_decode E b ;; json_loads E value_str
  | SqlText s => json_loads E s
  | _ =>
      Ok (PDict [("error", PStr "UnexpectedValueType");
                 ("details", PStr ("Expected bytes or str, got "
                                   ++ sql_class_repr value_blob));
                 ("key_name", PStr key_name)])
  end.

(** The three [except] clauses. *)
Definition decode_error (key_name : string) (e : PyExn) : PyVal :=
  let kind :=
    match exn_class e with
    | JSONDecodeError => "JSONDecodeError"
    | UnicodeDecodeError => "UnicodeDecodeError"
    | _ => "ValueProcessingError"
    end in
  PDict [("error", PStr kind);
         ("details", PStr (exn_msg e));
         ("key_name", PStr key_name)].

Definition get_json_value_for_key (self : VSCDBQuery) (key_name : string)
  : PyVal * VSCDBQuery :=
  let self1 := if conn self then self else _initialize_connection self in
  if negb (conn self1) then
    (PDict [("error",
             PStr "Failed to initialize DB connection for get_json_value_for_key");
            ("key_name", PStr key_name)], self1)
  else
    let '(result_row, self2) := _execute_query self1 key_name in
    match result_row with
    | RowError d => (d, self2)
    | RowTuple SqlNull => (PNone, self2)
    | RowTuple value_blob =>
        match decode_value_blob key_name value_blob with
        | Ok v => (v, self2)
        | Raise e => (decode_error key_name e, self2)
        end
    | RowNone => (PNone, self2)
    end.

(** ** get_all_chat_sessions_metadata *)

(** The body of the [for composer in ...] loop, [sessions] being the list
    built so far. *)
Fixpoint collect_sessions (composers : list PyVal) (sessions : list PyVal)
  : Res (list PyVal) :=
  match composers with
  | [] => Ok sessions
  | composer :: rest =>
      cid <- py_get composer "composerId" PNone ;;
      keep <- (if py_truthy cid
               then (nm <- py_get composer "name" PNone ;; Ok (py_truthy nm))
               else Ok false) ;;
      if (keep : bool) then
        composerId <- py_getitem composer "composerId" ;;
        name <- py_getitem composer "name" ;;
        lastUpdatedAt <- py_get composer "lastUpdatedAt" PNone ;;
        createdAt <- py_get composer "createdAt" PNone ;;
        collect_sessions rest
          (sessions ++ [PDict [("composerId", composerId);
                               ("name", name);
                               ("lastUpdatedAt", lastUpdatedAt);
                               ("createdAt", createdAt)]])
      else collect_sessions rest sessions
  end.

(** The [try] block. *)
Definition parse_all_composers (composer_data_json : PyVal)
  : Res (list PyVal) :=
  all_composers <- py_get composer_data_json "allComposers" (PList []) ;;
  composers <- py_iter all_composers ;;
  collect_sessions composers [].

Definition get_all_chat_sessions_metadata (self : VSCDBQuery)
  : PyVal * VSCDBQuery :=
  if negb (conn self) then
    (PDict [("error", PStr "DB connection not active for metadata retrieval")],
     self)
  else
    let metadata_key := aichat_query_key (config self) in
    if metadata_key =? "" then
      (PDict [("error", PStr "aichat_query_key missing in config")], self)
    else
      let '(composer_data_json, self1) :=
        get_json_value_for_key self metadata_key in
      if negb (py_truthy composer_data_json) || is_error_dict composer_data_json
      then (composer_data_json, self1)
      else
        match parse_all_composers composer_data_json with
        | Ok sessions => (PList sessions, self1)
        | Raise e =>
            match exn_class e with
            | TypeError =>
                (PDict [("error",
                         PStr ("Unexpected composer metadata structure: "
                               ++ exn_msg e));
                        ("db_path", PStr (db_path self1))], self1)
            | _ =>
                (PDict [("error",
                         PStr ("Error parsing allComposers from metadata: "
                               ++ exn_msg e));
                        ("db_path", PStr (db_path self1))], self1)
            end
        end.

(** ** get_all_prompts_raw, get_all_generations_raw *)

(** The four-way test both methods apply to the decoded value. *)
Definition raw_array_or_none (decoded : PyVal) : PyVal :=
  if is_none decoded then PNone
  else if is_error_dict decoded then PNone
  else if is_list decoded then decoded
  else PNone.

Definition get_all_prompts_raw (self : VSCDBQuery) : PyVal * VSCDBQuery :=
  let '(prompts_json, self1) :=
    get_json_value_for_key self (prompts_key (config self)) in
  (raw_array_or_none prompts_json, self1).

Definition get_all_generations_raw (self : VSCDBQuery) : PyVal * VSCDBQuery :=
  let '(generations_json, self1) :=
    get_json_value_for_key self (generations_key (config self)) in
  (raw_array_or_none generations_json, self1).

(** ** query_all_chat_data *)

(** The dictionary literal [chat_entry = {...}]. *)
Definition new_chat_entry (self : VSCDBQuery) (session_meta composer_id : PyVal)
  : Res (list (string * PyVal)) :=
  name <- py_getitem session_meta "name" ;;
  lastUpdatedAt <- py_get session_meta "lastUpdatedAt" PNone ;;
  createdAt <- py_get session_meta "createdAt" PNone ;;
  Ok [("composerId", composer_id);
      ("name", name);
      ("lastUpdatedAt", lastUpdatedAt);
      ("createdAt", createdAt);
      ("db_path", PStr (db_path self));
      ("session_data", PNone);
      ("error", PNone)].

(** The [if / elif / else] on [session_details]. *)
Definition fill_chat_entry (chat_entry : list (string * PyVal))
  (session_details : PyVal) : Res (list (string * PyVal)) :=
  if is_error_dict session_details then
    err <- py_getitem session_details "error" ;;
    Ok (dict_set chat_entry "error"
          (PStr ("Failed to get session details: " ++ format err)))
  else if is_none session_details then
    Ok (dict_set chat_entry "error"
          (PStr "No chat session data found for this composerId."))
  else
    Ok (dict_set chat_entry "session_data" session_details).

(** [self.get_chat_session_details(composer_id)], line 384. The class
    defines no method of that name (the name occurs nowhere else in the
    sources), it has no base class and no [__getattr__]: the attribute
    lookup raises before anything is called. *)
Definition get_chat_session_details (self : VSCDBQuery) (composer_id : PyVal)
  : Res PyVal :=
  Raise (no_attribute "get_chat_session_details").

(** The [for session_meta in all_sessions_metadata] loop. *)
Fixpoint process_sessions (self : VSCDBQuery) (metas : list PyVal)
  (processed_chats : list PyVal) : Res (list PyVal) :=
  match metas with
  | [] => Ok processed_chats
  | session_meta :: rest =>
      composer_id <- py_getitem session_meta "composerId" ;;
      session_details <- get_chat_session_details self composer_id ;;
      chat_entry <- new_chat_entry self session_meta composer_id ;;
      chat_entry' <- fill_chat_entry chat_entry session_details ;;
      process_sessions self rest (processed_chats ++ [PDict chat_entry'])
  end.

(** The result is paired with the object as the call leaves it. An
    exception leaves the method before any [close_connection]. *)
Definition query_all_chat_data (self : VSCDBQuery) : Res PyVal * VSCDBQuery :=
  let opened_connection_locally := negb (conn self) in
  let self1 := if conn self then self else _initialize_connection self in
  if negb (conn self1) then
    (Ok (PList [PDict [("error",
                        PStr ("Failed to initialize DB connection for "
                              ++ db_path self1));
                       ("db_path", PStr (db_path self1))]]), self1)
  else
    let '(all_sessions_metadata, self2) :=
      get_all_chat_sessions_metadata self1 in
    let finish (s : VSCDBQuery) :=
      if opened_connection_locally then close_connection s else s in
    if is_error_dict all_sessions_metadata then
      match py_getitem all_sessions_metadata "error" with
      | Ok err =>
          (Ok (PList [PDict [("error",
                              PStr ("Metadata fetch failed: " ++ format err));
                             ("db_path", PStr (db_path self2))]]),
           finish self2)
      | Raise e => (Raise e, self2)
      end
    else if negb (py_truthy all_sessions_metadata) then
      (Ok (PList []), finish self2)
    else
      match (metas <- py_iter all_sessions_metadata ;;
             process_sessions self2 metas []) with
      | Ok processed_chats => (Ok (PList processed_chats), finish self2)
      | Raise e => (Raise e, self2)
      end.

End Reader.

(* ================================================================== *)
(** * The export loop of chat.py *)
(* ================================================================== *)

(** [format_type.lower()], once [export] has rejected every other value. *)
Inductive FormatType : Type := Md | Json.

Definition extension_of (f : FormatType) : string :=
  match f with Md => "md" | Json => "json" end.

(** The keyword arguments of one [file_saver.save(...)] call. *)
Record SaveCall (DateTime : Type) : Type := mkSaveCall {
  content : string;
  base_filename : PyVal;
  identifier1 : string;
  identifier2 : PyVal;
  timestamp : DateTime;
  extension : string
}.

Arguments mkSaveCall {DateTime}.

(** What [export] uses from outside [chat.py]: the clock and [datetime], the
    path of a database file, and the formatter and saver of [src/export.py]
    (not among the sources), each free to raise.

    - [fromtimestamp_ms v] is [datetime.fromtimestamp(v / 1000)];
    - [strftime d] is [d.strftime("%Y-%m-%d %H:%M:%S")];
    - [parent_name p] is [Path(p).parent.name];
    - [formatter_format] is [MarkdownChatFormatter().format];
    - [json_dumps v] is [json.dumps(v, indent=2)];
    - [file_saver_save] is [MarkdownFileSaver(output_dir).save]. *)
Record ExportEnv : Type := mkExportEnv {
  DateTime : Type;
  now : DateTime;
  fromtimestamp_ms : PyVal -> Res DateTime;
  strftime : DateTime -> string;
  parent_name : string -> string;
  formatter_format : PyVal -> Res string;
  json_dumps : PyVal -> Res string;
  file_saver_save : SaveCall DateTime -> Res unit
}.

Section ExportLoop.

Variable E : Externals.
Variable X : ExportEnv.
Variable fs : FileSystem.
Variable cfg : Config.
Variable format_type : FormatType.

(** The body of [for session_data in all_chat_sessions]: the files it
    writes (none or one), or the exception that escapes it. Whatever the
    [try] block raises is caught and logged. *)
Definition export_session (db_identifier : string) (session_data : PyVal)
  : Res (list (SaveCall (DateTime X))) :=
  chat_title <- py_get session_data "name" (PStr "Untitled Chat") ;;
  composer_id <- py_get session_data "composerId" (PStr "UnknownID") ;;
  turns <- py_get session_data "turns" (PList []) ;;
  created_at_ms <- py_get session_data "createdAt" PNone ;;
  created_at_dt <- (if py_truthy created_at_ms
                    then fromtimestamp_ms X created_at_ms
                    else Ok (now X)) ;;
  if negb (py_truthy turns) then Ok []
  else
    let export_data :=
      PDict [("title", chat_title);
             ("composer_id", composer_id);
             ("db_identifier", PStr db_identifier);
             ("created_at", PStr (strftime X created_at_dt));
             ("turns", turns)] in
    let attempt :=
      text <- match format_type with
              | Md => formatter_format X export_data
              | Json => json_dumps X export_data
              end ;;
      let call := mkSaveCall text chat_title db_identifier composer_id
                    created_at_dt (extension_of format_type) in
      _ <- file_saver_save X call ;;
      Ok [call] in
    match attempt with
    | Ok written => Ok written
    | Raise _ => Ok []
    end.

(** The files a stretch of the run has written, and the exception that
    ended it if one escaped. *)
Definition Run : Type := (list (SaveCall (DateTime X)) * option PyExn)%type.

Fixpoint export_sessions (db_identifier : string) (sessions : list PyVal)
  : Run :=
  match sessions with
  | [] => ([], None)
  | session_data :: rest =>
      match export_session db_identifier session_data with
      | Ok written =>
          let '(more, failure) := export_sessions db_identifier rest in
          (written ++ more, failure)
      | Raise e => ([], Some e)
      end
  end.

(** The body of [for db_file in db_files_to_process]. *)
Definition export_database (db_file : string) : Run :=
  let db_identifier := parent_name X db_file in
  let vsc_db := __init__ fs cfg db_file in
  match fst (query_all_chat_data E fs vsc_db) with
  | Raise e => ([], Some e)
  | Ok all_chat_sessions =>
      if negb (py_truthy all_chat_sessions) then ([], None)
      else
        match py_iter all_chat_sessions with
        | Raise e => ([], Some e)
        | Ok sessions => export_sessions db_identifier sessions
        end
  end.

(** The loop over the databases. *)
Fixpoint export_loop (db_files : list string) : Run :=
  match db_files with
  | [] => ([], None)
  | db_file :: rest =>
      match export_database db_file with
      | (written, None) =>
          let '(more, failure) := export_loop rest in
          (written ++ more, failure)
      | (written, Some e) => (written, Some e)
      end
  end.

End ExportLoop.

(* ================================================================== *)
(** * Reference decoders for the worked examples *)
(* ================================================================== *)

(** The general theorems below hold for every [Externals]. The worked
    examples need concrete decoders to run on: a UTF-8 validator following
    RFC 3629, and a decoder for the fragment of JSON the sample databases
    use ([null], [true], [false], integers, strings with the simple
    escapes, arrays, objects). Text outside that fragment (fractions,
    exponents, [\u] escapes) is rejected, and the text of the exception
    messages is not the one CPython prints. *)
Module Reference.

Local Open Scope char_scope.

Definition in_range (lo hi : N) (b : byte) : bool :=
  let n := Byte.to_N b in ((lo <=? n) && (n <=? hi))%N.

Definition continuation (b : byte) : bool := in_range 128 191 b.

(** A three-byte sequence starts with one of these pairs. *)
Definition lead3 (b0 b1 : byte) : bool :=
  (in_range 224 224 b0 && in_range 160 191 b1)
  || (in_range 225 236 b0 && continuation b1)
  || (in_range 237 237 b0 && in_range 128 159 b1)
  || (in_range 238 239 b0 && continuation b1).

(** A four-byte sequence starts with one of these pairs. *)
Definition lead4 (b0 b1 : byte) : bool :=
  (in_range 240 240 b0 && in_range 144 191 b1)
  || (in_range 241 243 b0 && continuation b1)
  || (in_range 244 244 b0 && in_range 128 143 b1).

Fixpoint valid_utf8 (bs : list byte) : bool :=
  match bs with
  | [] => true
  | b0 :: r0 =>
      if in_range 0 127 b0 then valid_utf8 r0
      else
        match r0 with
        | [] => false
        | b1 :: r1 =>
            if in_range 194 223 b0 then continuation b1 && valid_utf8 r1
            else
              match r1 with
              | [] => false
              | b2 :: r2 =>
                  if lead3 b0 b1 then continuation b2 && valid_utf8 r2
                  else
                    match r2 with
                    | [] => false
                    | b3 :: r3 =>
                        lead4 b0 b1 && continuation b2 && continuation b3
                        && valid_utf8 r3
                    end
              end
        end
  end.

Definition bytes_decode (bs : list byte) : Res string :=
  if valid_utf8 bs then Ok (string_of_list_byte bs)
  else Raise (mkExn UnicodeDecodeError "'utf-8' codec can't decode bytes").

(** ** JSON *)

Definition is_ws (c : ascii) : bool :=
  match c with
  | " " | "009" | "010" | "013" => true
  | _ => false
  end.

Fixpoint skip_ws (s : list ascii) : list ascii :=
  match s with
  | c :: r => if is_ws c then skip_ws r else s
  | [] => []
  end.

Definition digit_of (c : ascii) : option Z :=
  let n := N_of_ascii c in
  if ((48 <=? n) && (n <=? 57))%N then Some (Z.of_N n - 48)%Z else None.

(** The digits at the head of [s], folded into [acc]. *)
Fixpoint take_digits (acc : Z) (s : list ascii) : Z * list ascii :=
  match s with
  | c :: r =>
      match digit_of c with
      | Some d => take_digits (10 * acc + d)%Z r
      | None => (acc, s)
      end
  | [] => (acc, [])
  end.

(** A fraction or an exponent would follow: not in the fragment. *)
Definition starts_fraction (s : list ascii) : bool :=
  match s with
  | "." :: _ | "e" :: _ | "E" :: _ => true
  | _ => false
  end.

(** [0] or a digit [1-9] followed by digits. *)
Definition parse_natural (s : list ascii) : option (Z * list ascii) :=
  match s with
  | "0" :: r => if starts_fraction r then None else Some (0%Z, r)
  | c :: r =>
      match digit_of c with
      | Some d =>
          let '(n, r') := take_digits d r in
          if starts_fraction r' then None else Some (n, r')
      | None => None
      end
  | [] => None
  end.

Definition parse_integer (s : list ascii) : option (Z * list ascii) :=
  match s with
  | "-" :: r =>
      match parse_natural r with
      | Some (n, r') => Some ((- n)%Z, r')
      | None => None
      end
  | _ => parse_natural s
  end.

Definition unescape (c : ascii) : option ascii :=
  match c with
  | "034" => Some "034"
  | "\" => Some "\"
  | "/" => Some "/"
  | "b" => Some "008"
  | "f" => Some "012"
  | "n" => Some "010"
  | "r" => Some "013"
  | "t" => Some "009"
  | _ => None
  end.

(** The characters up to the closing quote; control characters are
    rejected, as [json.loads] does by default. *)
Fixpoint parse_string_body (s : list ascii) : option (string * list ascii) :=
  match s with
  | [] => None
  | "034" :: r => Some (EmptyString, r)
  | "\" :: c :: r =>
      match unescape c, parse_string_body r with
      | Some c', Some (str, r') => Some (String c' str, r')
      | _, _ => None
      end
  | c :: r =>
      if (N_of_ascii c <? 32)%N then None
      else
        match parse_string_body r with
        | Some (str, r') => Some (String c str, r')
        | None => None
        end
  end.

Fixpoint parse_value (fuel : nat) (s : list ascii)
  : option (PyVal * list ascii) :=
  match fuel with
  | O => None
  | S fuel' =>
      match s with
      | "n" :: "u" :: "l" :: "l" :: r => Some (PNone, r)
      | "t" :: "r" :: "u" :: "e" :: r => Some (PBool true, r)
      | "f" :: "a" :: "l" :: "s" :: "e" :: r => Some (PBool false, r)
      | "034" :: r =>
          match parse_string_body r with
          | Some (str, r') => Some (PStr str, r')
          | None => None
          end
      | "[" :: r =>
          match skip_ws r with
          | "]" :: r' => Some (PList [], r')
          | r' => parse_elements fuel' r' []
          end
      | "{" :: r =>
          match skip_ws r with
          | "}" :: r' => Some (PDict [], r')
          | r' => parse_members fuel' r' []
          end
      | _ =>
          match parse_integer s with
          | Some (n, r) => Some (PInt n, r)
          | None => None
          end
      end
  end
with parse_elements (fuel : nat) (s : list ascii) (acc : list PyVal)
  : option (PyVal * list ascii) :=
  match fuel with
  | O => None
  | S fuel' =>
      match parse_value fuel' s with
      | Some (v, r) =>
          match skip_ws r with
          | "," :: r' => parse_elements fuel' (skip_ws r') (acc ++ [v])
          | "]" :: r' => Some (PList (acc ++ [v]), r')
          | _ => None
          end
      | None => None
      end
  end
with parse_members (fuel : nat) (s : list ascii) (acc : list (string * PyVal))
  : option (PyVal * list ascii) :=
  match fuel with
  | O => None
  | S fuel' =>
      match s with
      | "034" :: r =>
          match parse_string_body r with
          | Some (key, r1) =>
              match skip_ws r1 with
              | ":" :: r2 =>
                  match parse_value fuel' (skip_ws r2) with
                  | Some (v, r3) =>
                      match skip_ws r3 with
                      | "," :: r4 =>
                          parse_members fuel' (skip_ws r4) (dict_set acc key v)
                      | "}" :: r4 => Some (PDict (dict_set acc key v), r4)
                      | _ => None
                      end
                  | None => None
                  end
              | _ => None
              end
          | None => None
          end
      | _ => None
      end
  end.

Definition json_loads (text : string) : Res PyVal :=
  let s := skip_ws (list_ascii_of_string text) in
  match parse_value (2 * List.length s + 2) s with
  | Some (v, r) =>
      match skip_ws r with
      | [] => Ok v
      | _ => Raise (mkExn JSONDecodeError "Extra data")
      end
  | None => Raise (mkExn JSONDecodeError "Expecting value")
  end.

End Reference.

(* ================================================================== *)
(** * Sample databases *)
(* ================================================================== *)

Module Sample.

(** The double quote, and a quoted JSON string. *)
Definition dq : string := String (ascii_of_nat 34) EmptyString.
Definition q (s : string) : string := dq ++ s ++ dq.

(** A readable SQLite file whose only table is [ItemTable], holding the
    given (key, value) rows. *)
Definition item_table (rows : list (string * SqlValue)) : Database :=
  {| db_connect := None;
     db_select := fun table key =>
       if table =? "ItemTable"
       then Rows (map snd (filter (fun kv => fst kv =? key) rows))
       else QueryRaises (mkExn SqliteOperationalError
                           ("no such table: " ++ table)) |}.

(** A path at which [sqlite3.connect] fails. *)
Definition missing_file : Database :=
  {| db_connect :=
       Some (mkExn SqliteOperationalError "unable to open database file");
     db_select := fun _ _ =>
       QueryRaises (mkExn SqliteOperationalError
                      "unable to open database file") |}.

(** The per-session key that the warning of line 408 of [vscdb.py] names. *)
Definition session_key (composer_id : string) : string :=
  "workbench.panel.composerChatViewPane." ++ composer_id.

(** The scenario of the specification: two composers, the second without a
    name; the first has a per-session blob. *)
Definition metadata_text : string :=
  "{" ++ q "allComposers" ++ ": [{" ++ q "composerId" ++ ": " ++ q "a" ++ ", "
      ++ q "name" ++ ": " ++ q "Foo" ++ "}, {" ++ q "composerId" ++ ": "
      ++ q "b" ++ "}]}".

Definition session_a_text : string :=
  "{" ++ q "turns" ++ ": [{" ++ q "request" ++ ": " ++ q "hi" ++ ", "
      ++ q "response" ++ ": " ++ q "hello" ++ "}]}".

Definition db_scenario : Database :=
  item_table [("composer.composerData", SqlText metadata_text);
              ("aiService.prompts", SqlText ("[" ++ q "hi" ++ "]"));
              ("aiService.generations", SqlText ("[" ++ q "hello" ++ "]"));
              (session_key "a", SqlText session_a_text)].

(** Three composers, all named; the second has no per-session blob and the
    third one that does not parse. *)
Definition metadata3_text : string :=
  "{" ++ q "allComposers" ++ ": [{" ++ q "composerId" ++ ": " ++ q "z" ++ ", "
      ++ q "name" ++ ": " ++ q "Last" ++ "}, {" ++ q "composerId" ++ ": "
      ++ q "m" ++ ", " ++ q "name" ++ ": " ++ q "Middle" ++ "}, {"
      ++ q "composerId" ++ ": " ++ q "a" ++ ", " ++ q "name" ++ ": "
      ++ q "First" ++ "}]}".

Definition db_three : Database :=
  item_table [("composer.composerData", SqlBlob (list_byte_of_string metadata3_text));
              (session_key "z", SqlText session_a_text);
              (session_key "a", SqlText "{")].

(** No row for any key. *)
Definition db_empty : Database := item_table [].

(** The metadata value is present and is not UTF-8. *)
Definition db_bad_utf8 : Database :=
  item_table [("composer.composerData", SqlBlob [xff; xfe; x7b])].

(** The metadata value is present and is not JSON. *)
Definition db_bad_json : Database :=
  item_table [("composer.composerData",
               SqlText ("{" ++ q "allComposers" ++ ": ["))].

(** A prompts array whose second element is a number, not an object. *)
Definition prompts_mixed_text : string :=
  "[{" ++ q "text" ++ ": " ++ q "a" ++ "}, 5, {" ++ q "text" ++ ": "
       ++ q "b" ++ "}]".

Definition db_prompts_mixed : Database :=
  item_table [("aiService.prompts", SqlText prompts_mixed_text);
              ("aiService.generations", SqlText prompts_mixed_text)].

(** A prompts array whose second element is not valid JSON. *)
Definition prompts_broken_text : string :=
  "[{" ++ q "text" ++ ": " ++ q "a" ++ "}, {" ++ q "text" ++ ": }, {"
       ++ q "text" ++ ": " ++ q "b" ++ "}]".

Definition db_prompts_broken : Database :=
  item_table [("composer.composerData", SqlText metadata_text);
              ("aiService.prompts", SqlText prompts_broken_text);
              ("aiService.generations", SqlText prompts_broken_text);
              (session_key "a", SqlText session_a_text)].

(** The prompts value is not UTF-8. *)
Definition db_prompts_bad_utf8 : Database :=
  item_table [("aiService.prompts", SqlBlob [xc3; x28])].

(** The prompts value is a JSON object, not an array. *)
Definition db_prompts_object : Database :=
  item_table [("aiService.prompts",
               SqlText ("{" ++ q "text" ++ ": " ++ q "a" ++ "}"))].

(** A metadata list with an entry that is not an object. *)
Definition db_null_entry : Database :=
  item_table [("composer.composerData",
               SqlText ("{" ++ q "allComposers" ++ ": [null, {"
                        ++ q "composerId" ++ ": " ++ q "a" ++ ", "
                        ++ q "name" ++ ": " ++ q "Foo" ++ "}]}"))].

(** The composer entries of [metadata3_text], and the blob, decoded. *)
Definition three_composers : list PyVal :=
  [PDict [("composerId", PStr "z"); ("name", PStr "Last")];
   PDict [("composerId", PStr "m"); ("name", PStr "Middle")];
   PDict [("composerId", PStr "a"); ("name", PStr "First")]].

Definition three_blob : list (string * PyVal) :=
  [("allComposers", PList three_composers)].

(** The composer entries of [metadata_text], and the blob, decoded. *)
Definition scenario_composers : list PyVal :=
  [PDict [("composerId", PStr "a"); ("name", PStr "Foo")];
   PDict [("composerId", PStr "b")]].

Definition scenario_blob : list (string * PyVal) :=
  [("allComposers", PList scenario_composers)].

(** Two values that fail to decode, each in its own way. *)
Definition db_two_failures : Database :=
  item_table [("aiService.prompts", SqlBlob [xc3; x28]);
              ("aiService.generations", SqlText prompts_broken_text)].

Definition files : FileSystem := fun path =>
  if path =? "/ws/scenario/state.vscdb" then db_scenario
  else if path =? "/ws/three/state.vscdb" then db_three
  else if path =? "/ws/empty/state.vscdb" then db_empty
  else if path =? "/ws/bad_utf8/state.vscdb" then db_bad_utf8
  else if path =? "/ws/bad_json/state.vscdb" then db_bad_json
  else if path =? "/ws/prompts_mixed/state.vscdb" then db_prompts_mixed
  else if path =? "/ws/prompts_broken/state.vscdb" then db_prompts_broken
  else if path =? "/ws/prompts_bad_utf8/state.vscdb" then db_prompts_bad_utf8
  else if path =? "/ws/prompts_object/state.vscdb" then db_prompts_object
  else if path =? "/ws/null_entry/state.vscdb" then db_null_entry
  else if path =? "/ws/two_failures/state.vscdb" then db_two_failures
  else missing_file.

(** [repr] on the fragment the examples print: [None], the booleans and
    the integers; any other value prints as its type name here. *)
Definition repr (v : PyVal) : string :=
  match v with
  | PNone => "None"
  | PBool true => "True"
  | PBool false => "False"
  | PInt z => DecimalString.NilZero.string_of_int (Z.to_int z)
  | _ => "<" ++ type_name v ++ ">"
  end.

(** The reference decoders. *)
Definition externals : Externals :=
  {| json_loads := Reference.json_loads;
     bytes_decode := Reference.bytes_decode;
     py_repr := repr |}.

(** [VSCDBQuery(path)] with the default configuration. *)
Definition open_db (path : string) : VSCDBQuery :=
  __init__ files default_config path.

(** An export environment: a point in time is the number of milliseconds
    itself, the formatter prints the export data with [format], every save
    succeeds. *)
Definition export_env : ExportEnv :=
  {| DateTime := PyVal;
     now := PInt 0;
     fromtimestamp_ms := fun v =>
       match v with
       | PInt _ | PBool _ | PFloat _ => Ok v
       | _ => Raise (mkExn TypeError
                       ("unsupported operand type(s) for /: '"
                        ++ type_name v ++ "' and 'int'"))
       end;
     strftime := format externals;
     parent_name := fun path => path;
     formatter_format := fun v => Ok (format externals v);
     json_dumps := fun v => Ok (format externals v);
     file_saver_save := fun _ => Ok tt |}.

End Sample.

(* ================================================================== *)
(** * The vocabulary of the specification *)
(* ================================================================== *)

(** The field [k] of a composer entry, [None] when the entry has no such
    field or is not an object. *)
Definition field (entry : PyVal) (k : string) : PyVal :=
  match entry with
  | PDict d => match dict_get d k with Some v => v | None => PNone end
  | _ => PNone
  end.

(** The entry has a field [k] and its value is not empty: not [None], not
    the empty string, not zero, not an empty container. *)
Definition field_non_empty (entry : PyVal) (k : string) : bool :=
  py_truthy (field entry k).

(** The filter of the catalog: both a composerId and a name. *)
Definition has_id_and_title (entry : PyVal) : bool :=
  field_non_empty entry "composerId" && field_non_empty entry "name".

(** The session descriptor of a composer entry. *)
Definition descriptor_of (entry : PyVal) : PyVal :=
  PDict [("composerId", field entry "composerId");
         ("name", field entry "name");
         ("lastUpdatedAt", field entry "lastUpdatedAt");
         ("createdAt", field entry "createdAt")].

(** The object as [query_all_chat_data] uses it once past its first test. *)
Definition live_object (fs : FileSystem) (self : VSCDBQuery) : VSCDBQuery :=
  if conn self then self else _initialize_connection fs self.

(** A per-database error entry: [{"error": message, "db_path": path}]. *)
Definition error_entry (message path : string) : PyVal :=
  PDict [("error", PStr message); ("db_path", PStr path)].

(** The name [get_json_value_for_key] gives a decode failure. *)
Definition failure_kind (e : PyExn) : string :=
  match exn_class e with
  | JSONDecodeError => "JSONDecodeError"
  | UnicodeDecodeError => "UnicodeDecodeError"
  | _ => "ValueProcessingError"
  end.

(** The whole decoded array, or [None]: what a load returns for the outcome
    of decoding the stored value. *)
Definition whole_or_none (decoded : Res PyVal) : PyVal :=
  match decoded with
  | Ok (PList items) => PList items
  | _ => PNone
  end.

(* ================================================================== *)
(** * The rest of the reader: _load_config *)
(* ================================================================== *)

(** [len(v)] *)
Definition py_len (v : PyVal) : Res Z :=
  match v with
  | PList l => Ok (Z.of_nat (List.length l))
  | PDict d => Ok (Z.of_nat (List.length d))
  | PStr s => Ok (Z.of_nat (List.length (str_chars s)))
  | _ => Raise (mkExn TypeError
                  ("object of type '" ++ type_name v ++ "' has no len()"))
  end.

(** [v == s] for a [str] [s]: only an equal [str] compares equal. *)
Definition py_eq_str (v : PyVal) (s : string) : bool :=
  match v with
  | PStr t => t =? s
  | _ => false
  end.

(** What opening and parsing [config.yml] comes to: the file is missing,
    [yaml.safe_load] raises [YAMLError], something else raises, or the
    parsed document. *)
Inductive ConfigFile : Type :=
| ConfigMissing
| ConfigYamlError
| ConfigOtherError
| ConfigParsed (config_data : PyVal).

(** The dictionary of defaults that each [except] clause returns. *)
Definition config_defaults : list (string * PyVal) :=
  [("aichat_query_key", PStr "composer.composerData");
   ("prompts_key", PStr "aiService.prompts");
   ("generations_key", PStr "aiService.generations");
   ("table_name", PStr "ItemTable")].

(** The [try] block of [_load_config] once the file is parsed. *)
Definition read_config (config_data : PyVal) : Res (list (string * PyVal)) :=
  aichat <- py_get config_data "aichat_query_key"
              (PStr "composer.composerData") ;;
  prompts <- py_get config_data "prompts_key" (PStr "aiService.prompts") ;;
  generations <- py_get config_data "generations_key"
                   (PStr "aiService.generations") ;;
  table <- py_get config_data "table_name" (PStr "ItemTable") ;;
  Ok [("aichat_query_key", aichat);
      ("prompts_key", prompts);
      ("generations_key", generations);
      ("table_name", table)].

Definition _load_config (file : ConfigFile) : list (string * PyVal) :=
  match file with
  | ConfigParsed config_data =>
      match read_config config_data with
      | Ok loaded => loaded
      | Raise _ => config_defaults
      end
  | _ => config_defaults
  end.

(* ================================================================== *)
(** * The rest of chat.py: discover, and the choice of databases *)
(* ================================================================== *)

(** [db_files_to_process] of [export] when the databases come from a
    search: the first [limit_db] of them when the limit is positive and
    smaller than their number, all of them otherwise. *)
Definition limit_found_dbs (limit_db : Z) (found_dbs : list string)
  : list string :=
  if ((0 <? limit_db) && (limit_db <? Z.of_nat (List.length found_dbs)))%Z
  then firstn (Z.to_nat limit_db) found_dbs
  else found_dbs.

Section Discover.

Variable E : Externals.
Variable X : ExportEnv.
Variable fs : FileSystem.
Variable cfg : Config.

(** A timestamp column of the summary: the formatted date, or "N/A". *)
Definition timestamp_text (ms : PyVal) : Res string :=
  if py_truthy ms
  then (d <- fromtimestamp_ms X ms ;; Ok (strftime X d))
  else Ok "N/A".

(** The body of [for session_info in chat_sessions] in [discover_from_db]:
    whether the session counts as discovered. What is printed is left out. *)
Definition discover_session (session_info : PyVal) : Res bool :=
  chat_title <- py_get session_info "name" (PStr "Untitled Chat") ;;
  composer_id <- py_get session_info "composerId" (PStr "UnknownID") ;;
  created_at_ms <- py_get session_info "createdAt" PNone ;;
  updated_at_ms <- py_get session_info "lastUpdatedAt" PNone ;;
  turns <- py_get session_info "turns" (PList []) ;;
  turns_count <- py_len turns ;;
  created_str <- timestamp_text created_at_ms ;;
  updated_str <- timestamp_text updated_at_ms ;;
  Ok (0 <? turns_count)%Z.

Fixpoint discover_sessions (sessions : list PyVal)
  (discovered_chats_count : Z) : Res Z :=
  match sessions with
  | [] => Ok discovered_chats_count
  | session_info :: rest =>
      counted <- discover_session session_info ;;
      discover_sessions rest
        (if (counted : bool) then discovered_chats_count + 1
         else discovered_chats_count)%Z
  end.

(** [discover_from_db]: the number of sessions with turns, or the
    exception that escapes. *)
Definition discover_from_db (db_file_path : string) : Res Z :=
  let vsc_db := __init__ fs cfg db_file_path in
  chat_sessions <- fst (query_all_chat_data E fs vsc_db) ;;
  if negb (py_truthy chat_sessions) then Ok 0%Z
  else
    found <- py_len chat_sessions ;;
    sessions <- py_iter chat_sessions ;;
    discover_sessions sessions 0%Z.

(** The loop of [discover] over the database files: the total and the
    number of databases processed when the loop ends, and the exception
    that ended it if one escaped. *)
Fixpoint discover_loop (limit : Z) (db_files : list string)
  (total_discovered_chats processed_count : Z) : Z * Z * option PyExn :=
  match db_files with
  | [] => (total_discovered_chats, processed_count, None)
  | db_file :: rest =>
      if ((0 <? limit) && (limit <=? processed_count))%Z
      then (total_discovered_chats, processed_count, None)
      else
        match discover_from_db db_file with
        | Ok found =>
            discover_loop limit rest (total_discovered_chats + found)%Z
              (processed_count + 1)%Z
        | Raise e => (total_discovered_chats, processed_count, Some e)
        end
  end.

End Discover.

(* ================================================================== *)
(** * The tools of mcp_server.py *)
(* ================================================================== *)

(** What the tools use of [pathlib]: the directory of [mcp_server.py],
    [Path(s)] as text, [a / b], [p.parent] and [p.exists()]. *)
Record McpEnv : Type := mkMcpEnv {
  project_root : string;
  as_path : string -> string;
  joinpath : string -> string -> string;
  parent_dir : string -> string;
  path_exists : string -> bool
}.

(** [get_cursor_workspace_path(use_config_file=True)]: the function of
    [chat.py] takes no parameter, so the call raises before its body
    runs. *)
Definition get_cursor_workspace_path_use_config_file : Res string :=
  Raise (mkExn TypeError
    "get_cursor_workspace_path() got an unexpected keyword argument 'use_config_file'").

Section Mcp.

Variable E : Externals.
Variable M : McpEnv.
Variable fs : FileSystem.
Variable cfg : Config.

(** [get_db_path(db_identifier, base_path_str)]; an absent or empty
    [base_path_str] is falsy. *)
Definition get_db_path (db_identifier : string) (base_path_str : option string)
  : string :=
  let fallback :=
    let base_path := joinpath M (project_root M) "data" in
    if negb (path_exists M base_path) then
      match get_cursor_workspace_path_use_config_file with
      | Ok workspace => as_path M workspace
      | Raise _ => joinpath M (project_root M) "data"
      end
    else base_path in
  let base_path :=
    match base_path_str with
    | Some s => if s =? "" then fallback else as_path M s
    | None => fallback
    end in
  joinpath M (joinpath M base_path db_identifier) "state.vscdb".

(** [list_sessions(ctx, db_identifier)] *)
Definition list_sessions (db_identifier : string) : PyVal :=
  let db_file_path := get_db_path db_identifier None in
  if negb (path_exists M db_file_path) then
    PList [PDict [("error", PStr "Database file not found");
                  ("path", PStr db_file_path)]]
  else
    let attempt :=
      let query_instance := __init__ fs cfg (parent_dir M db_file_path) in
      let sessions_metadata :=
        fst (get_all_chat_sessions_metadata E fs query_instance) in
      if negb (py_truthy sessions_metadata) then Ok (PList [])
      else
        _ <- py_len sessions_metadata ;;
        Ok sessions_metadata in
    match attempt with
    | Ok answer => answer
    | Raise e => PList [PDict [("error", PStr (exn_msg e))]]
    end.

(** The first element of [sessions] whose composerId is [session_id]
    ([for ... if ...: break]), [None] when there is none. *)
Fixpoint find_session_meta (sessions : list PyVal) (session_id : string)
  : Res PyVal :=
  match sessions with
  | [] => Ok PNone
  | session_meta :: rest =>
      cid <- py_get session_meta "composerId" PNone ;;
      if py_eq_str cid session_id then Ok session_meta
      else find_session_meta rest session_id
  end.

(** The same search over [sessions_with_reconstructed_turns]. *)
Fixpoint find_reconstructed (sessions : list PyVal) (session_id : string)
  : Res PyVal :=
  match sessions with
  | [] => Ok PNone
  | session_details :: rest =>
      metadata <- py_get session_details "metadata" (PDict []) ;;
      cid <- py_get metadata "composerId" PNone ;;
      if py_eq_str cid session_id then Ok session_details
      else find_reconstructed rest session_id
  end.

(** The [try] block of [export_chat_session]. *)
Definition export_chat_session_body (db_file_path session_id : string)
  : Res PyVal :=
  let query_instance := __init__ fs cfg (parent_dir M db_file_path) in
  all_data <- fst (query_all_chat_data E fs query_instance) ;;
  composer_data <- py_get all_data "composer_data" PNone ;;
  target_session_metadata <-
    (if py_truthy composer_data then
       composer_data' <- py_getitem all_data "composer_data" ;;
       all_composers <- py_get composer_data' "allComposers" (PList []) ;;
       sessions <- py_iter all_composers ;;
       find_session_meta sessions session_id
     else Ok PNone) ;;
  if negb (py_truthy target_session_metadata) then
    Ok (PDict [("error",
                PStr ("Session ID " ++ session_id
                      ++ " not found in composer metadata."))])
  else
    reconstructed_list <-
      py_get all_data "sessions_with_reconstructed_turns" (PList []) ;;
    candidates <- py_iter reconstructed_list ;;
    reconstructed <- find_reconstructed candidates session_id ;;
    if py_truthy reconstructed then Ok reconstructed
    else
      Ok (PDict [("metadata", target_session_metadata);
                 ("turns", PList []);
                 ("warning",
                  PStr "Turns could not be reconstructed or were not found.")]).

(** [export_chat_session(ctx, db_identifier, session_id)] *)
Definition export_chat_session (db_identifier session_id : string) : PyVal :=
  let db_file_path := get_db_path db_identifier None in
  if negb (path_exists M db_file_path) then
    PDict [("error", PStr "Database file not found");
           ("path", PStr db_file_path)]
  else
    match export_chat_session_body db_file_path session_id with
    | Ok answer => answer
    | Raise e => PDict [("error", PStr (exn_msg e))]
    end.

End Mcp.

(* ================================================================== *)
(** * More sample databases *)
(* ================================================================== *)

Module Edge.

Import Sample.

Definition foo : string :=
  "{" ++ q "composerId" ++ ": " ++ q "a" ++ ", " ++ q "name" ++ ": "
      ++ q "Foo" ++ "}".

Definition bar : string :=
  "{" ++ q "composerId" ++ ": " ++ q "b" ++ ", " ++ q "name" ++ ": "
      ++ q "Bar" ++ "}".

(** A metadata object that also has a top-level "error" field. *)
Definition db_error_field : Database :=
  item_table [("composer.composerData",
               SqlText ("{" ++ q "error" ++ ": " ++ q "stale" ++ ", "
                        ++ q "allComposers" ++ ": [" ++ foo ++ "]}"))].

(** [allComposers] is [null]. *)
Definition db_null_composers : Database :=
  item_table [("composer.composerData",
               SqlText ("{" ++ q "allComposers" ++ ": null}"))].

(** The metadata document is an array. *)
Definition db_array_document : Database :=
  item_table [("composer.composerData", SqlText ("[" ++ foo ++ "]"))].

(** The metadata document is the empty object. *)
Definition db_empty_object : Database :=
  item_table [("composer.composerData", SqlText "{}")].

(** A number between two good entries. *)
Definition db_number_entry : Database :=
  item_table [("composer.composerData",
               SqlText ("{" ++ q "allComposers" ++ ": [" ++ foo ++ ", 7, "
                        ++ bar ++ "]}"))].

(** The metadata column holds an INTEGER. *)
Definition db_integer_value : Database :=
  item_table [("composer.composerData", SqlInteger 7)].

(** The metadata column holds NULL. *)
Definition db_null_value : Database :=
  item_table [("composer.composerData", SqlNull)].

(** One named session; its two generations carry timestamps, the later
    one first in the array. *)
Definition db_timed : Database :=
  item_table [("composer.composerData",
               SqlText ("{" ++ q "allComposers" ++ ": [" ++ foo ++ "]}"));
              ("aiService.prompts",
               SqlText ("[{" ++ q "text" ++ ": " ++ q "first" ++ "}, {"
                        ++ q "text" ++ ": " ++ q "second" ++ "}]"));
              ("aiService.generations",
               SqlText ("[{" ++ q "text" ++ ": " ++ q "r2" ++ ", "
                        ++ q "timestamp" ++ ": 20}, {" ++ q "text" ++ ": "
                        ++ q "r1" ++ ", " ++ q "timestamp" ++ ": 10}]"))].

(** A file that opens and has no [ItemTable]. *)
Definition db_no_table : Database :=
  {| db_connect := None;
     db_select := fun table _ =>
       QueryRaises (mkExn SqliteOperationalError
                      ("no such table: " ++ table)) |}.

Definition files : FileSystem := fun path =>
  if path =? "/ws/error_field/state.vscdb" then db_error_field
  else if path =? "/ws/null_composers/state.vscdb" then db_null_composers
  else if path =? "/ws/array_document/state.vscdb" then db_array_document
  else if path =? "/ws/empty_object/state.vscdb" then db_empty_object
  else if path =? "/ws/number_entry/state.vscdb" then db_number_entry
  else if path =? "/ws/integer_value/state.vscdb" then db_integer_value
  else if path =? "/ws/null_value/state.vscdb" then db_null_value
  else if path =? "/ws/no_table/state.vscdb" then db_no_table
  else if path =? "/ws/timed/state.vscdb" then db_timed
  else Sample.files path.

Definition open_db (path : string) : VSCDBQuery :=
  __init__ files default_config path.

(** The text before the last "/" of [s], if [s] has one. *)
Fixpoint before_last_slash (s : string) : option string :=
  match s with
  | EmptyString => None
  | String c rest =>
      match before_last_slash rest with
      | Some head => Some (String c head)
      | None => if Ascii.eqb c "/"%char then Some EmptyString else None
      end
  end.

(** A project under "/proj" whose data directory holds the scenario
    database; paths are joined with "/". *)
Definition mcp_env : McpEnv :=
  {| project_root := "/proj";
     as_path := fun s => s;
     joinpath := fun a b => (a ++ "/" ++ b)%string;
     parent_dir := fun p =>
       match before_last_slash p with Some d => d | None => "." end;
     path_exists := fun p =>
       (p =? "/proj/data") || (p =? "/proj/data/scenario/state.vscdb") |}.

(** A database identifier with a "?" in it. The tools build their reader
    on the parent of the file path, here
    "/proj/data/scenario/state.vscdb?x="; in the URI
    [file:{db_path}?mode=ro] that [sqlite3.connect] is given, the path ends
    at the first "?", so the file opened is the scenario database. *)
Definition uri_identifier : string := "scenario/state.vscdb?x=".

Definition uri_files : FileSystem := fun path =>
  if path =? "/proj/data/scenario/state.vscdb?x=" then db_scenario
  else Sample.files path.

Definition uri_env : McpEnv :=
  {| project_root := "/proj";
     as_path := fun s => s;
     joinpath := fun a b => (a ++ "/" ++ b)%string;
     parent_dir := fun p =>
       match before_last_slash p with Some d => d | None => "." end;
     path_exists := fun p =>
       (p =? "/proj/data")
       || (p =? "/proj/data/scenario/state.vscdb?x=/state.vscdb") |}.

End Edge.

(* ================================================================== *)
(** * Facts about values and dictionaries *)
(* ================================================================== *)

Lemma is_error_dict_inv (v : PyVal) :
  is_error_dict v = true ->
  exists d x, v = PDict d /\ dict_get d "error" = Some x.
Proof.
  destruct v as [| | | | |l|d]; simpl; try discriminate.
  unfold dict_has. destruct (dict_get d "error") as [x|] eqn:Hx.
  - intros _. exists d, x. split; [reflexivity | exact Hx].
  - discriminate.
Qed.

Lemma is_none_inv (v : PyVal) : is_none v = true -> v = PNone.
Proof. destruct v; simpl; congruence. Qed.

Lemma is_dict_inv (v : PyVal) : is_dict v = true -> exists d, v = PDict d.
Proof. destruct v; simpl; try discriminate. intros _. eexists; reflexivity. Qed.

Lemma error_dict_is_truthy (v : PyVal) :
  is_error_dict v = true -> py_truthy v = true.
Proof.
  intros H. destruct (is_error_dict_inv v H) as (d & x & -> & Hx).
  destruct d; [discriminate | reflexivity].
Qed.

Lemma set_conn_same (self : VSCDBQuery) : set_conn self (conn self) = self.
Proof. destruct self; reflexivity. Qed.

Lemma set_conn_twice (self : VSCDBQuery) (a b : bool) :
  set_conn (set_conn self a) b = set_conn self b.
Proof. reflexivity. Qed.

Lemma py_truthy_field_some (d : list (string * PyVal)) (k : string) :
  py_truthy (field (PDict d) k) = true ->
  dict_get d k = Some (field (PDict d) k).
Proof.
  simpl. destruct (dict_get d k); [reflexivity | discriminate].
Qed.

(** A descriptor keeps the four fields of its entry. *)
Lemma field_descriptor_of (c : PyVal) (k : string) :
  k = "composerId" \/ k = "name" \/ k = "lastUpdatedAt" \/ k = "createdAt" ->
  field (descriptor_of c) k = field c k.
Proof.
  intros [-> | [-> | [-> | ->]]]; reflexivity.
Qed.

Lemma has_id_and_title_descriptor (c : PyVal) :
  has_id_and_title (descriptor_of c) = has_id_and_title c.
Proof. reflexivity. Qed.

Lemma descriptor_of_idem (c : PyVal) :
  descriptor_of (descriptor_of c) = descriptor_of c.
Proof. reflexivity. Qed.

(* ================================================================== *)
(** * The reader: connection state *)
(* ================================================================== *)

Section ReaderFacts.

Variable E : Externals.
Variable fs : FileSystem.

Lemma live_object_fields (self : VSCDBQuery) :
  db_path (live_object fs self) = db_path self
  /\ config (live_object fs self) = config self
  /\ table_name (live_object fs self) = table_name self.
Proof.
  unfold live_object, _initialize_connection.
  destruct (conn self); [auto |].
  destruct (db_connect (fs (db_path self))); auto.
Qed.

Lemma initialize_connection_idem (self : VSCDBQuery) :
  _initialize_connection fs (_initialize_connection fs self)
  = _initialize_connection fs self.
Proof.
  unfold _initialize_connection.
  destruct (db_connect (fs (db_path self))) eqn:Hd; simpl; rewrite Hd;
    reflexivity.
Qed.

Lemma live_object_idem (self : VSCDBQuery) :
  conn self = true -> live_object fs self = self.
Proof. unfold live_object. intros ->. reflexivity. Qed.

(** With the connection open, [_execute_query] leaves the object alone. *)
Lemma execute_query_keeps (self : VSCDBQuery) (key_name : string) :
  conn self = true -> snd (_execute_query fs self key_name) = self.
Proof.
  intros Hc. unfold _execute_query. cbv zeta. rewrite !Hc. cbn [negb].
  destruct (db_select (fs (db_path self)) (table_name self) key_name)
    as [[|row rows]|e]; try reflexivity.
  destruct (is_sqlite_error e); reflexivity.
Qed.

Lemma get_json_value_for_key_keeps (self : VSCDBQuery) (key_name : string) :
  conn self = true -> snd (get_json_value_for_key E fs self key_name) = self.
Proof.
  intros Hc. unfold get_json_value_for_key. cbv zeta. rewrite !Hc. cbn [negb].
  pose proof (execute_query_keeps self key_name Hc) as Hk.
  destruct (_execute_query fs self key_name) as [row self2]. simpl in Hk.
  subst self2.
  destruct row as [d|value|]; try reflexivity.
  destruct value; try reflexivity;
    destruct (decode_value_blob E key_name _); reflexivity.
Qed.

(** The value does not depend on whether the caller or the method opens
    the connection. *)
Lemma get_json_value_for_key_live (self : VSCDBQuery) (key_name : string) :
  fst (get_json_value_for_key E fs (live_object fs self) key_name)
  = fst (get_json_value_for_key E fs self key_name).
Proof.
  unfold live_object. destruct (conn self) eqn:Hc; [reflexivity |].
  unfold get_json_value_for_key. cbv zeta. rewrite Hc.
  rewrite initialize_connection_idem.
  destruct (conn (_initialize_connection fs self)) eqn:Hi;
    cbn iota; rewrite ?Hi; reflexivity.
Qed.

Lemma get_all_chat_sessions_metadata_keeps (self : VSCDBQuery) :
  snd (get_all_chat_sessions_metadata E fs self) = self.
Proof.
  unfold get_all_chat_sessions_metadata. cbv zeta.
  destruct (conn self) eqn:Hc; [cbn [negb] | reflexivity].
  destruct (aichat_query_key (config self) =? ""); [reflexivity |].
  pose proof (get_json_value_for_key_keeps self
                (aichat_query_key (config self)) Hc) as Hk.
  destruct (get_json_value_for_key E fs self (aichat_query_key (config self)))
    as [blob self1]. simpl in Hk. subst self1.
  destruct (negb (py_truthy blob) || is_error_dict blob); [reflexivity |].
  destruct (parse_all_composers blob) as [sessions|e]; [reflexivity |].
  destruct (exn_class e); reflexivity.
Qed.

End ReaderFacts.

(* ================================================================== *)
(** * The catalog loop and the assembly loop *)
(* ================================================================== *)

(** One step of [collect_sessions] on an object entry. *)
Lemma collect_sessions_step (d : list (string * PyVal)) (rest acc : list PyVal) :
  collect_sessions (PDict d :: rest) acc
  = collect_sessions rest
      (if has_id_and_title (PDict d) then acc ++ [descriptor_of (PDict d)]
       else acc).
Proof.
  unfold has_id_and_title, field_non_empty.
  cbn [collect_sessions py_get bind].
  change (match dict_get d "composerId" with Some x => x | None => PNone end)
    with (field (PDict d) "composerId").
  destruct (py_truthy (field (PDict d) "composerId")) eqn:Hid;
    cbn [bind andb]; [| reflexivity].
  change (match dict_get d "name" with Some x => x | None => PNone end)
    with (field (PDict d) "name").
  destruct (py_truthy (field (PDict d) "name")) eqn:Hname;
    cbn [bind]; [| reflexivity].
  unfold py_getitem.
  rewrite (py_truthy_field_some d "composerId" Hid).
  rewrite (py_truthy_field_some d "name" Hname).
  reflexivity.
Qed.

(** On a list of objects the loop never raises and keeps, in order, the
    descriptors of the entries that pass the filter. *)
Lemma collect_sessions_objects (composers acc : list PyVal) :
  Forall (fun c => is_dict c = true) composers ->
  collect_sessions composers acc
  = Ok (acc ++ map descriptor_of (filter has_id_and_title composers)).
Proof.
  intros Hall. revert acc.
  induction Hall as [|c rest Hc _ IH]; intros acc.
  - simpl. rewrite app_nil_r. reflexivity.
  - destruct (is_dict_inv c Hc) as [d ->].
    rewrite collect_sessions_step, IH.
    cbn [filter].
    destruct (has_id_and_title (PDict d)); [| reflexivity].
    cbn [map]. rewrite <- app_assoc. reflexivity.
Qed.

(** If the loop returns, every entry was an object. *)
Lemma collect_sessions_returns (composers acc sessions : list PyVal) :
  collect_sessions composers acc = Ok sessions ->
  Forall (fun c => is_dict c = true) composers.
Proof.
  revert acc. induction composers as [|c rest IH]; intros acc H.
  - constructor.
  - destruct c as [| | | | | |d];
      try (cbn [collect_sessions py_get bind] in H; discriminate).
    rewrite collect_sessions_step in H.
    constructor; [reflexivity | eapply IH; exact H].
Qed.

(** The assembly loop stops at its first session: the descriptor has its
    composerId, and the lookup of the method raises. *)
Lemma process_sessions_raises (E : Externals) (live : VSCDBQuery) (c : PyVal)
  (rest processed : list PyVal) :
  process_sessions E live (descriptor_of c :: rest) processed
  = Raise (no_attribute "get_chat_session_details").
Proof. reflexivity. Qed.

(* ================================================================== *)
(** * What the catalog and the assembly return *)
(* ================================================================== *)

Section Results.

Variable E : Externals.
Variable fs : FileSystem.

(** If the [try] block of the catalog returns, it returns descriptors. *)
Lemma parse_all_composers_returns (blob : PyVal) (sessions : list PyVal) :
  parse_all_composers blob = Ok sessions ->
  exists composers,
    Forall (fun c => is_dict c = true) composers
    /\ sessions = map descriptor_of (filter has_id_and_title composers).
Proof.
  unfold parse_all_composers.
  destruct (py_get blob "allComposers" (PList [])) as [all|e];
    cbn [bind]; [| discriminate].
  destruct (py_iter all) as [composers|e]; cbn [bind]; [| discriminate].
  intros H. exists composers.
  pose proof (collect_sessions_returns _ _ _ H) as Hall.
  rewrite (collect_sessions_objects _ _ Hall) in H.
  cbn [app] in H. split; [exact Hall | congruence].
Qed.

(** The catalog answers an error dict, a falsy value, or descriptors. *)
Lemma catalog_result (self : VSCDBQuery) :
  let meta := fst (get_all_chat_sessions_metadata E fs self) in
  is_error_dict meta = true
  \/ py_truthy meta = false
  \/ exists composers, meta = PList (map descriptor_of composers).
Proof.
  unfold get_all_chat_sessions_metadata. cbv zeta.
  destruct (conn self); cbn [negb]; [| left; reflexivity].
  destruct (aichat_query_key (config self) =? ""); [left; reflexivity |].
  destruct (get_json_value_for_key E fs self (aichat_query_key (config self)))
    as [blob self1].
  destruct (negb (py_truthy blob) || is_error_dict blob) eqn:Hb.
  - cbn [fst]. apply orb_true_iff in Hb. destruct Hb as [Hb|Hb].
    + right; left. apply negb_true_iff. exact Hb.
    + left. exact Hb.
  - destruct (parse_all_composers blob) as [sessions|e] eqn:Hp.
    + right; right. cbn [fst].
      destruct (parse_all_composers_returns _ _ Hp) as (cs & _ & ->).
      eexists. reflexivity.
    + left. destruct (exn_class e); reflexivity.
Qed.

(** A fresh connection that fails leaves the object as it was. *)
Lemma failed_connection_keeps (self : VSCDBQuery) :
  conn self = false ->
  conn (_initialize_connection fs self) = false ->
  _initialize_connection fs self = self.
Proof.
  intros Hc Hi. unfold _initialize_connection in *.
  destruct (db_connect (fs (db_path self))); simpl in Hi; [| discriminate].
  rewrite <- Hc. apply set_conn_same.
Qed.

Lemma close_live_object (self : VSCDBQuery) :
  conn self = false ->
  close_connection (live_object fs self) = self.
Proof.
  intros Hc. unfold close_connection, live_object, _initialize_connection.
  rewrite Hc. destruct (db_connect (fs (db_path self)));
    rewrite set_conn_twice, <- Hc; apply set_conn_same.
Qed.

(** The outcome of [query_all_chat_data] in closed form. It returns, and
    leaves the object as it found it, unless the catalog lists a session:
    then it raises, with the connection open. *)
Lemma query_all_chat_data_eq (self : VSCDBQuery) :
  let live := live_object fs self in
  let meta := fst (get_all_chat_sessions_metadata E fs live) in
  query_all_chat_data E fs self
  = if negb (conn live) then
      (Ok (PList [error_entry ("Failed to initialize DB connection for "
                               ++ db_path self) (db_path self)]), self)
    else if is_error_dict meta then
      (Ok (PList [error_entry ("Metadata fetch failed: "
                               ++ format E (field meta "error"))
                    (db_path self)]), self)
    else if negb (py_truthy meta) then (Ok (PList []), self)
    else (Raise (no_attribute "get_chat_session_details"), live).
Proof.
  cbv zeta.
  destruct (live_object_fields fs self) as (Hpath & _ & _).
  unfold query_all_chat_data. cbv zeta.
  change (if conn self then self else _initialize_connection fs self)
    with (live_object fs self).
  set (live := live_object fs self) in *.
  destruct (conn live) eqn:Hlive; cbn [negb].
  - pose proof (get_all_chat_sessions_metadata_keeps E fs live) as Hkeep.
    pose proof (catalog_result live) as Hcases. cbv zeta in Hcases.
    destruct (get_all_chat_sessions_metadata E fs live) as [meta self2].
    cbn [fst snd] in *. subst self2.
    assert (Hfin : (if negb (conn self) then close_connection live else live)
                   = self).
    { destruct (conn self) eqn:Hc; cbn [negb].
      - subst live. apply live_object_idem. exact Hc.
      - subst live. apply close_live_object. exact Hc. }
    destruct (is_error_dict meta) eqn:Herr.
    + destruct (is_error_dict_inv meta Herr) as (d & x & -> & Hx).
      cbn [py_getitem field]. rewrite Hx, Hfin, Hpath. reflexivity.
    + destruct (py_truthy meta) eqn:Htruthy; cbn [negb].
      * destruct Hcases as [Hcase|[Hcase|[cs ->]]]; try discriminate.
        destruct cs as [|c rest]; [discriminate Htruthy |].
        cbn [py_iter bind map]. rewrite process_sessions_raises. reflexivity.
      * rewrite Hfin. reflexivity.
  - rewrite Hpath. f_equal.
    unfold live, live_object in *. destruct (conn self) eqn:Hc.
    + reflexivity.
    + apply failed_connection_keeps; assumption.
Qed.

(** The three ways the call can end. *)
Lemma query_all_chat_data_outcome (self : VSCDBQuery) :
  (exists message,
     fst (query_all_chat_data E fs self)
     = Ok (PList [error_entry message (db_path self)]))
  \/ fst (query_all_chat_data E fs self) = Ok (PList [])
  \/ fst (query_all_chat_data E fs self)
     = Raise (no_attribute "get_chat_session_details").
Proof.
  rewrite query_all_chat_data_eq. cbv zeta.
  destruct (negb (conn (live_object fs self))).
  { left. eexists. reflexivity. }
  destruct (is_error_dict _).
  { left. eexists. reflexivity. }
  destruct (negb (py_truthy _)); [right; left | right; right]; reflexivity.
Qed.

End Results.

(* ================================================================== *)
(** * A metadata blob of the documented shape *)
(* ================================================================== *)

Section ShapedBlob.

Variable E : Externals.
Variable fs : FileSystem.

(** A value that is not an error dict was read through a live connection. *)
Lemma decoded_value_needs_connection (self : VSCDBQuery) (key_name : string) :
  is_error_dict (fst (get_json_value_for_key E fs self key_name)) = false ->
  conn (live_object fs self) = true.
Proof.
  unfold live_object, get_json_value_for_key. cbv zeta.
  destruct (conn self) eqn:Hc; [intros _; exact Hc |].
  destruct (conn (_initialize_connection fs self)) eqn:Hi;
    [reflexivity | cbn; discriminate].
Qed.

(** The catalog on a blob that is an object with a list of objects. *)
Lemma catalog_of_blob (self : VSCDBQuery) (blob : list (string * PyVal))
  (composers : list PyVal) :
  conn self = true ->
  aichat_query_key (config self) <> "" ->
  fst (get_json_value_for_key E fs self (aichat_query_key (config self)))
  = PDict blob ->
  dict_has blob "error" = false ->
  dict_get blob "allComposers" = Some (PList composers) ->
  Forall (fun c => is_dict c = true) composers ->
  fst (get_all_chat_sessions_metadata E fs self)
  = PList (map descriptor_of (filter has_id_and_title composers)).
Proof.
  intros Hc Hkey Hblob Herr Hall Hobjs.
  unfold get_all_chat_sessions_metadata. cbv zeta.
  rewrite Hc. cbn [negb].
  apply String.eqb_neq in Hkey. rewrite Hkey.
  destruct (get_json_value_for_key E fs self (aichat_query_key (config self)))
    as [value self1]. cbn [fst] in Hblob. subst value.
  assert (Htruthy : py_truthy (PDict blob) = true).
  { destruct blob; [discriminate Hall | reflexivity]. }
  rewrite Htruthy. cbn [negb orb is_error_dict]. rewrite Herr.
  unfold parse_all_composers. cbn [py_get]. rewrite Hall. cbn [bind py_iter].
  rewrite (collect_sessions_objects _ _ Hobjs). reflexivity.
Qed.

(** The assembly on such a blob: the empty list when no entry passes the
    filter; otherwise the call raises at the first session it should
    assemble. *)
Lemma query_of_blob (self : VSCDBQuery) (blob : list (string * PyVal))
  (composers : list PyVal) :
  aichat_query_key (config self) <> "" ->
  fst (get_json_value_for_key E fs self (aichat_query_key (config self)))
  = PDict blob ->
  dict_has blob "error" = false ->
  dict_get blob "allComposers" = Some (PList composers) ->
  Forall (fun c => is_dict c = true) composers ->
  query_all_chat_data E fs self
  = match filter has_id_and_title composers with
    | [] => (Ok (PList []), self)
    | _ :: _ =>
        (Raise (no_attribute "get_chat_session_details"), live_object fs self)
    end.
Proof.
  intros Hkey Hblob Herr Hall Hobjs.
  assert (Hlive : conn (live_object fs self) = true).
  { apply decoded_value_needs_connection with (aichat_query_key (config self)).
    rewrite Hblob. exact Herr. }
  destruct (live_object_fields fs self) as (_ & Hcfg & _).
  pose proof (catalog_of_blob (live_object fs self) blob composers Hlive) as Hcat.
  rewrite Hcfg, get_json_value_for_key_live in Hcat.
  specialize (Hcat Hkey Hblob Herr Hall Hobjs).
  rewrite query_all_chat_data_eq. cbv zeta.
  rewrite Hlive, Hcat. cbn [negb is_error_dict].
  destruct (filter has_id_and_title composers) as [|c rest]; reflexivity.
Qed.

End ShapedBlob.

(* ================================================================== *)
(** * The assembled output *)
(* ================================================================== *)

(** C1. The claim fails on the code. When the metadata blob decodes to an
    object whose [allComposers] is a list of objects of which at least one
    carries both a composerId and a name, [query_all_chat_data] returns no
    entry at all: the loop that should build one entry per descriptor calls
    [self.get_chat_session_details], which the class does not define, and
    the [AttributeError] leaves the method with the connection still
    open. *)
Theorem query_all_chat_data_raises_on_a_listed_session
  (E : Externals) (fs : FileSystem) (self : VSCDBQuery)
  (blob : list (string * PyVal)) (composers : list PyVal) :
  aichat_query_key (config self) <> "" ->
  fst (get_json_value_for_key E fs self (aichat_query_key (config self)))
  = PDict blob ->
  dict_has blob "error" = false ->
  dict_get blob "allComposers" = Some (PList composers) ->
  Forall (fun c => is_dict c = true) composers ->
  filter has_id_and_title composers <> [] ->
  query_all_chat_data E fs self
  = (Raise (no_attribute "get_chat_session_details"), set_conn self true)
  /\ forall entries, fst (query_all_chat_data E fs self) <> Ok (PList entries).
Proof.
  intros Hkey Hblob Herr Hall Hobjs Hsome.
  assert (Hlive : live_object fs self = set_conn self true).
  { pose proof (decoded_value_needs_connection E fs self
                  (aichat_query_key (config self))) as Hconn.
    rewrite Hblob in Hconn. specialize (Hconn Herr).
    unfold live_object, _initialize_connection in *.
    destruct (conn self) eqn:Hc.
    - rewrite <- Hc. symmetry. apply set_conn_same.
    - destruct (db_connect (fs (db_path self))); [discriminate Hconn |].
      reflexivity. }
  rewrite (query_of_blob E fs self blob composers Hkey Hblob Herr Hall Hobjs).
  destruct (filter has_id_and_title composers) as [|c rest];
    [contradiction |].
  rewrite Hlive. split; [reflexivity | discriminate].
Qed.

(** On the scenario of section 8 of the specification: one descriptor
    passes the filter, and no entry comes back for it. *)
Lemma scenario_session_is_not_returned :
  query_all_chat_data Sample.externals Sample.files
    (Sample.open_db "/ws/scenario/state.vscdb")
  = (Raise (no_attribute "get_chat_session_details"),
     set_conn (Sample.open_db "/ws/scenario/state.vscdb") true)
  /\ forall entries,
       fst (query_all_chat_data Sample.externals Sample.files
              (Sample.open_db "/ws/scenario/state.vscdb"))
       <> Ok (PList entries).
Proof.
  apply (query_all_chat_data_raises_on_a_listed_session
           Sample.externals Sample.files
           (Sample.open_db "/ws/scenario/state.vscdb")
           Sample.scenario_blob Sample.scenario_composers).
  - discriminate.
  - vm_compute. reflexivity.
  - reflexivity.
  - reflexivity.
  - repeat constructor.
  - discriminate.
Defined.

(** C8. The claim fails on the code. The catalog keeps the order of the
    blob (the descriptors z, m, a of this database come back in that
    order), but the assembled output never exists for a blob that lists a
    session: [query_all_chat_data] raises at the first of them. *)
Theorem three_sessions_are_listed_in_order_and_not_assembled :
  let self := Sample.open_db "/ws/three/state.vscdb" in
  fst (get_all_chat_sessions_metadata Sample.externals Sample.files self)
  = PList (map descriptor_of Sample.three_composers)
  /\ map (fun session => field session "composerId")
       (map descriptor_of Sample.three_composers)
     = [PStr "z"; PStr "m"; PStr "a"]
  /\ fst (query_all_chat_data Sample.externals Sample.files self)
     = Raise (no_attribute "get_chat_session_details").
Proof.
  cbv zeta. repeat split; vm_compute; reflexivity.
Qed.

(* ================================================================== *)
(** * The catalog filter *)
(* ================================================================== *)

Lemma descriptor_in_kept (composers : list PyVal) (c : PyVal) :
  In (descriptor_of c) (map descriptor_of (filter has_id_and_title composers))
  -> has_id_and_title c = true.
Proof.
  intros Hin. apply in_map_iff in Hin. destruct Hin as (c' & Heq & Hin').
  apply filter_In in Hin'. destruct Hin' as [_ Hkept].
  rewrite <- has_id_and_title_descriptor, <- Heq, has_id_and_title_descriptor.
  exact Hkept.
Qed.

(** C6, as stated, fails. The second entry of this blob has both a
    composerId and a name, yet no descriptor of it appears: the first entry
    is [null], it has neither field, and instead of being dropped it makes
    the catalog answer an error dict for the whole blob. *)
Lemma null_entry_hides_a_named_session :
  let self := Sample.open_db "/ws/null_entry/state.vscdb" in
  let foo := PDict [("composerId", PStr "a"); ("name", PStr "Foo")] in
  fst (get_json_value_for_key Sample.externals Sample.files self
         "composer.composerData")
  = PDict [("allComposers", PList [PNone; foo])]
  /\ has_id_and_title foo = true
  /\ fst (get_all_chat_sessions_metadata Sample.externals Sample.files self)
     = error_entry
         "Error parsing allComposers from metadata: 'NoneType' object has no attribute 'get'"
         "/ws/null_entry/state.vscdb"
  /\ forall sessions,
       fst (get_all_chat_sessions_metadata Sample.externals Sample.files self)
       <> PList sessions.
Proof.
  cbv zeta.
  assert (H : fst (get_all_chat_sessions_metadata Sample.externals Sample.files
                     (Sample.open_db "/ws/null_entry/state.vscdb"))
              = error_entry
                  "Error parsing allComposers from metadata: 'NoneType' object has no attribute 'get'"
                  "/ws/null_entry/state.vscdb")
    by (vm_compute; reflexivity).
  split; [vm_compute; reflexivity |].
  split; [reflexivity |].
  split; [exact H |].
  intros sessions. rewrite H. discriminate.
Qed.

(** C6, amended. For a metadata blob that decodes to an object without a
    top-level "error" field and whose [allComposers] is a list of objects,
    the catalog returns a list of descriptors, not an error; the descriptor
    of a composer entry is in it if and only if the entry has both a
    non-empty composerId and a non-empty name, and every descriptor in it
    comes from such an entry. *)
Theorem catalog_keeps_entries_with_id_and_title
  (E : Externals) (fs : FileSystem) (self : VSCDBQuery)
  (blob : list (string * PyVal)) (composers : list PyVal) :
  conn self = true ->
  aichat_query_key (config self) <> "" ->
  fst (get_json_value_for_key E fs self (aichat_query_key (config self)))
  = PDict blob ->
  dict_has blob "error" = false ->
  dict_get blob "allComposers" = Some (PList composers) ->
  Forall (fun c => is_dict c = true) composers ->
  exists sessions,
    fst (get_all_chat_sessions_metadata E fs self) = PList sessions
    /\ (forall c, In c composers ->
          (In (descriptor_of c) sessions <-> has_id_and_title c = true))
    /\ (forall d, In d sessions ->
          exists c, In c composers /\ has_id_and_title c = true
                    /\ d = descriptor_of c).
Proof.
  intros Hc Hkey Hblob Herr Hall Hobjs.
  exists (map descriptor_of (filter has_id_and_title composers)).
  split; [| split].
  - apply catalog_of_blob with blob; assumption.
  - intros c Hin. split.
    + apply descriptor_in_kept.
    + intros Hkept. apply in_map. apply filter_In. split; assumption.
  - intros d Hin. apply in_map_iff in Hin. destruct Hin as (c & Heq & Hin).
    apply filter_In in Hin. destruct Hin as [Hin Hkept].
    exists c. repeat split; [exact Hin | exact Hkept | symmetry; exact Heq].
Qed.

(** On the scenario of the specification: Foo is kept, the entry without a
    name is dropped. *)
Lemma catalog_filter_on_the_scenario :
  exists sessions,
    fst (get_all_chat_sessions_metadata Sample.externals Sample.files
           (Sample.open_db "/ws/scenario/state.vscdb")) = PList sessions
    /\ (forall c, In c Sample.scenario_composers ->
          (In (descriptor_of c) sessions <-> has_id_and_title c = true))
    /\ (forall d, In d sessions ->
          exists c, In c Sample.scenario_composers
                    /\ has_id_and_title c = true /\ d = descriptor_of c).
Proof.
  apply (catalog_keeps_entries_with_id_and_title
           Sample.externals Sample.files
           (Sample.open_db "/ws/scenario/state.vscdb")
           Sample.scenario_blob Sample.scenario_composers).
  - reflexivity.
  - discriminate.
  - vm_compute. reflexivity.
  - reflexivity.
  - reflexivity.
  - repeat constructor.
Defined.

(* ================================================================== *)
(** * Shape of the result, and repeated runs *)
(* ================================================================== *)

(** C10. The claim fails on the code. On a database that lists a session,
    [query_all_chat_data] returns no list: it raises [AttributeError] at
    line 384, and an object that was closed at the call is left with the
    connection it opened. *)
Theorem closed_scenario_query_raises_and_stays_open :
  let closed := close_connection (Sample.open_db "/ws/scenario/state.vscdb") in
  conn closed = false
  /\ query_all_chat_data Sample.externals Sample.files closed
     = (Raise (no_attribute "get_chat_session_details"), set_conn closed true).
Proof. cbv zeta. split; vm_compute; reflexivity. Qed.

(** C9. Two runs of [query_all_chat_data] over an unchanged store end the
    same way: the second returns the list the first returned, or raises
    the exception the first raised. The second run leaves the object as the
    first left it. (The first may leave the connection open: it does when
    it raises.) *)
Theorem query_all_chat_data_repeatable
  (E : Externals) (fs : FileSystem) (self : VSCDBQuery) :
  let first := query_all_chat_data E fs self in
  let second := query_all_chat_data E fs (snd first) in
  fst second = fst first /\ snd second = snd first.
Proof.
  cbv zeta. rewrite (query_all_chat_data_eq E fs self). cbv zeta.
  destruct (negb (conn (live_object fs self))) eqn:Hlive.
  { cbn [fst snd]. rewrite query_all_chat_data_eq. cbv zeta. rewrite Hlive.
    split; reflexivity. }
  destruct (is_error_dict
              (fst (get_all_chat_sessions_metadata E fs (live_object fs self))))
    eqn:Herr.
  { cbn [fst snd]. rewrite query_all_chat_data_eq. cbv zeta.
    rewrite Hlive, Herr. split; reflexivity. }
  destruct (negb (py_truthy
              (fst (get_all_chat_sessions_metadata E fs (live_object fs self)))))
    eqn:Htruthy.
  { cbn [fst snd]. rewrite query_all_chat_data_eq. cbv zeta.
    rewrite Hlive, Herr, Htruthy. split; reflexivity. }
  cbn [fst snd]. rewrite query_all_chat_data_eq. cbv zeta.
  apply negb_false_iff in Hlive.
  rewrite (live_object_idem fs _ Hlive), Hlive, Herr, Htruthy.
  split; reflexivity.
Qed.

(** On a database that lists a session the two runs raise alike, and the
    first leaves the connection open. *)
Example two_runs_on_the_closed_scenario :
  let closed := close_connection (Sample.open_db "/ws/scenario/state.vscdb") in
  let first := query_all_chat_data Sample.externals Sample.files closed in
  let second := query_all_chat_data Sample.externals Sample.files (snd first) in
  fst first = Raise (no_attribute "get_chat_session_details")
  /\ fst second = fst first
  /\ conn (snd first) = true
  /\ snd second = snd first.
Proof. cbv zeta. repeat split; vm_compute; reflexivity. Qed.

(* ================================================================== *)
(** * Reading one key *)
(* ================================================================== *)

Section OneKey.

Variable E : Externals.
Variable fs : FileSystem.

(** No row for the key: the value is [None]. *)
Lemma get_json_value_no_row (self : VSCDBQuery) (key_name : string) :
  conn self = true ->
  db_select (fs (db_path self)) (table_name self) key_name = Rows [] ->
  fst (get_json_value_for_key E fs self key_name) = PNone.
Proof.
  intros Hc Hrows.
  unfold get_json_value_for_key, _execute_query. cbv zeta.
  rewrite !Hc. cbn [negb]. rewrite Hrows. reflexivity.
Qed.

(** A row for the key: its first value, decoded. *)
Lemma get_json_value_of_row (self : VSCDBQuery) (key_name : string)
  (value : SqlValue) (others : list SqlValue) :
  conn self = true ->
  db_select (fs (db_path self)) (table_name self) key_name
  = Rows (value :: others) ->
  fst (get_json_value_for_key E fs self key_name)
  = match value with
    | SqlNull => PNone
    | _ => match decode_value_blob E key_name value with
           | Ok v => v
           | Raise e => decode_error key_name e
           end
    end.
Proof.
  intros Hc Hrows.
  unfold get_json_value_for_key, _execute_query. cbv zeta.
  rewrite !Hc. cbn [negb]. rewrite Hrows.
  destruct value; try reflexivity;
    destruct (decode_value_blob E key_name _); reflexivity.
Qed.

(** The four-way test of the loaders keeps a list and nothing else. *)
Lemma raw_array_or_none_eq (decoded : PyVal) :
  raw_array_or_none decoded = if is_list decoded then decoded else PNone.
Proof.
  unfold raw_array_or_none.
  destruct decoded as [| | | | |l|d]; try reflexivity.
  cbn. destruct (dict_has d "error"); reflexivity.
Qed.

Lemma decode_error_is_error_dict (key_name : string) (e : PyExn) :
  is_error_dict (decode_error key_name e) = true.
Proof. reflexivity. Qed.

End OneKey.

(* ================================================================== *)
(** * An absent metadata key *)
(* ================================================================== *)

(** C3. The claim fails on the code: with no row for the metadata key the
    catalog returns [None], which is not the empty list. *)
Lemma absent_metadata_key_returns_none_not_empty_list :
  db_select (Sample.files "/ws/empty/state.vscdb") "ItemTable"
    "composer.composerData" = Rows []
  /\ fst (get_all_chat_sessions_metadata Sample.externals Sample.files
            (Sample.open_db "/ws/empty/state.vscdb")) = PNone
  /\ fst (get_all_chat_sessions_metadata Sample.externals Sample.files
            (Sample.open_db "/ws/empty/state.vscdb")) <> PList [].
Proof.
  split; [reflexivity |].
  assert (H : fst (get_all_chat_sessions_metadata Sample.externals Sample.files
                     (Sample.open_db "/ws/empty/state.vscdb")) = PNone)
    by (vm_compute; reflexivity).
  split; [exact H | rewrite H; discriminate].
Qed.

(** C3, on every store. When the lookup of the metadata key finds no row,
    the catalog returns [None]: neither of the two results its docstring
    announces (a list of dicts, an error dict). Its caller
    [query_all_chat_data] turns the [None] into the empty list. *)
Theorem absent_metadata_key_gives_none
  (E : Externals) (fs : FileSystem) (self : VSCDBQuery) :
  conn self = true ->
  aichat_query_key (config self) <> "" ->
  db_select (fs (db_path self)) (table_name self)
    (aichat_query_key (config self)) = Rows [] ->
  fst (get_all_chat_sessions_metadata E fs self) = PNone
  /\ is_error_dict (fst (get_all_chat_sessions_metadata E fs self)) = false
  /\ is_list (fst (get_all_chat_sessions_metadata E fs self)) = false
  /\ fst (query_all_chat_data E fs self) = Ok (PList []).
Proof.
  intros Hc Hkey Hrows.
  assert (Hmeta : fst (get_all_chat_sessions_metadata E fs self) = PNone).
  { unfold get_all_chat_sessions_metadata. cbv zeta. rewrite Hc. cbn [negb].
    apply String.eqb_neq in Hkey. rewrite Hkey.
    pose proof (get_json_value_no_row E fs self _ Hc Hrows) as Hnone.
    destruct (get_json_value_for_key E fs self (aichat_query_key (config self)))
      as [value self1]. cbn [fst] in Hnone. subst value. reflexivity. }
  rewrite Hmeta. repeat split.
  rewrite query_all_chat_data_eq. cbv zeta. cbn [fst].
  rewrite (live_object_idem fs self Hc), Hc, Hmeta. reflexivity.
Qed.

(** On the database without any row. *)
Lemma absent_metadata_key_on_the_empty_database :
  fst (get_all_chat_sessions_metadata Sample.externals Sample.files
         (Sample.open_db "/ws/empty/state.vscdb")) = PNone
  /\ is_error_dict
       (fst (get_all_chat_sessions_metadata Sample.externals Sample.files
               (Sample.open_db "/ws/empty/state.vscdb"))) = false
  /\ is_list
       (fst (get_all_chat_sessions_metadata Sample.externals Sample.files
               (Sample.open_db "/ws/empty/state.vscdb"))) = false
  /\ fst (query_all_chat_data Sample.externals Sample.files
            (Sample.open_db "/ws/empty/state.vscdb")) = Ok (PList []).
Proof.
  apply (absent_metadata_key_gives_none Sample.externals Sample.files
           (Sample.open_db "/ws/empty/state.vscdb")).
  - reflexivity.
  - discriminate.
  - reflexivity.
Defined.

(* ================================================================== *)
(** * The prompt and generation arrays *)
(* ================================================================== *)

(** C4, as stated, fails. An array whose second element is a number comes
    back whole, the number included; an array whose second element is not
    valid JSON does not come back at all. In neither case does the load
    return the two well-formed elements alone. *)
Lemma raw_arrays_do_not_skip_elements :
  let whole := PList [PDict [("text", PStr "a")]; PInt 5;
                      PDict [("text", PStr "b")]] in
  let well_formed := PList [PDict [("text", PStr "a")];
                            PDict [("text", PStr "b")]] in
  let mixed := Sample.open_db "/ws/prompts_mixed/state.vscdb" in
  let broken := Sample.open_db "/ws/prompts_broken/state.vscdb" in
  fst (get_all_prompts_raw Sample.externals Sample.files mixed) = whole
  /\ fst (get_all_generations_raw Sample.externals Sample.files mixed) = whole
  /\ whole <> well_formed
  /\ fst (get_all_prompts_raw Sample.externals Sample.files broken) = PNone
  /\ fst (get_all_generations_raw Sample.externals Sample.files broken) = PNone
  /\ PNone <> well_formed.
Proof.
  cbv zeta. repeat split; try (vm_compute; reflexivity); discriminate.
Qed.

(** C4, amended. The loads decode the stored value as one piece and return
    either the whole decoded array, every element as decoded, or [None]
    (when the value does not decode, or decodes to something that is not
    an array); they never look at the elements and never skip one. *)
Theorem raw_arrays_whole_or_none
  (E : Externals) (fs : FileSystem) (self : VSCDBQuery)
  (prompts generations : SqlValue) (more_prompts more_generations : list SqlValue) :
  conn self = true ->
  db_select (fs (db_path self)) (table_name self) (prompts_key (config self))
  = Rows (prompts :: more_prompts) ->
  db_select (fs (db_path self)) (table_name self)
    (generations_key (config self))
  = Rows (generations :: more_generations) ->
  fst (get_all_prompts_raw E fs self)
  = whole_or_none (decode_value_blob E (prompts_key (config self)) prompts)
  /\ fst (get_all_generations_raw E fs self)
     = whole_or_none
         (decode_value_blob E (generations_key (config self)) generations).
Proof.
  intros Hc Hp Hg.
  assert (Hload : forall key value others,
             db_select (fs (db_path self)) (table_name self) key
             = Rows (value :: others) ->
             raw_array_or_none (fst (get_json_value_for_key E fs self key))
             = whole_or_none (decode_value_blob E key value)).
  { intros key value others Hrow.
    rewrite (get_json_value_of_row E fs self key value others Hc Hrow).
    rewrite raw_array_or_none_eq.
    destruct value; try reflexivity;
      destruct (decode_value_blob E key _) as [v|e];
      try reflexivity; destruct v; reflexivity. }
  unfold get_all_prompts_raw, get_all_generations_raw. split.
  - specialize (Hload _ _ _ Hp).
    destruct (get_json_value_for_key E fs self (prompts_key (config self))).
    exact Hload.
  - specialize (Hload _ _ _ Hg).
    destruct (get_json_value_for_key E fs self (generations_key (config self))).
    exact Hload.
Qed.

(** On the array whose second element is a number. *)
Lemma raw_arrays_on_the_mixed_array :
  let mixed := Sample.open_db "/ws/prompts_mixed/state.vscdb" in
  fst (get_all_prompts_raw Sample.externals Sample.files mixed)
  = whole_or_none
      (decode_value_blob Sample.externals "aiService.prompts"
         (SqlText Sample.prompts_mixed_text))
  /\ fst (get_all_generations_raw Sample.externals Sample.files mixed)
     = whole_or_none
         (decode_value_blob Sample.externals "aiService.generations"
            (SqlText Sample.prompts_mixed_text)).
Proof.
  apply (raw_arrays_whole_or_none Sample.externals Sample.files
           (Sample.open_db "/ws/prompts_mixed/state.vscdb")
           (SqlText Sample.prompts_mixed_text)
           (SqlText Sample.prompts_mixed_text) [] []).
  - reflexivity.
  - reflexivity.
  - reflexivity.
Defined.

(* ================================================================== *)
(** * Kinds of decode failure *)
(* ================================================================== *)

(** C7, as stated, fails. Bytes that are not UTF-8, text that is not JSON,
    an object where an array is expected, and an absent key all make
    [get_all_prompts_raw] / [get_all_generations_raw] return the same
    [None]: their caller cannot tell the outcomes apart. *)
Lemma raw_loads_hide_the_failure_kind :
  let two := Sample.open_db "/ws/two_failures/state.vscdb" in
  let object := Sample.open_db "/ws/prompts_object/state.vscdb" in
  let empty := Sample.open_db "/ws/empty/state.vscdb" in
  field (fst (get_json_value_for_key Sample.externals Sample.files two
                "aiService.prompts")) "error" = PStr "UnicodeDecodeError"
  /\ fst (get_all_prompts_raw Sample.externals Sample.files two) = PNone
  /\ field (fst (get_json_value_for_key Sample.externals Sample.files two
                   "aiService.generations")) "error" = PStr "JSONDecodeError"
  /\ fst (get_all_generations_raw Sample.externals Sample.files two) = PNone
  /\ fst (get_json_value_for_key Sample.externals Sample.files object
            "aiService.prompts") = PDict [("text", PStr "a")]
  /\ fst (get_all_prompts_raw Sample.externals Sample.files object) = PNone
  /\ fst (get_all_prompts_raw Sample.externals Sample.files empty) = PNone.
Proof.
  cbv zeta. repeat split; vm_compute; reflexivity.
Qed.

(** C7, amended. For a present value, [get_json_value_for_key] reports
    bytes that are not UTF-8 and text that is not JSON as error dicts whose
    [error] fields differ ("UnicodeDecodeError", "JSONDecodeError"), so its
    caller can tell the two apart. It checks no shape. The loaders
    built on it return [None] for both failures alike, and for every
    decoded value that is not an array. *)
Theorem decode_failures_by_kind
  (E : Externals) (fs : FileSystem) (self : VSCDBQuery)
  (key_bytes key_text : string) (b : list byte) (text : string)
  (more_bytes more_text : list SqlValue) (e_bytes e_text : PyExn) :
  conn self = true ->
  db_select (fs (db_path self)) (table_name self) key_bytes
  = Rows (SqlBlob b :: more_bytes) ->
  bytes_decode E b = Raise e_bytes ->
  exn_class e_bytes = UnicodeDecodeError ->
  db_select (fs (db_path self)) (table_name self) key_text
  = Rows (SqlText text :: more_text) ->
  json_loads E text = Raise e_text ->
  exn_class e_text = JSONDecodeError ->
  let encoding_failure := fst (get_json_value_for_key E fs self key_bytes) in
  let malformed_json := fst (get_json_value_for_key E fs self key_text) in
  field encoding_failure "error" = PStr "UnicodeDecodeError"
  /\ field malformed_json "error" = PStr "JSONDecodeError"
  /\ encoding_failure <> malformed_json
  /\ raw_array_or_none encoding_failure = PNone
  /\ raw_array_or_none malformed_json = PNone
  /\ (forall decoded,
        raw_array_or_none decoded = if is_list decoded then decoded else PNone).
Proof.
  intros Hc Hb Hdec Hcls_b Ht Hloads Hcls_t. cbv zeta.
  rewrite (get_json_value_of_row E fs self _ _ _ Hc Hb).
  rewrite (get_json_value_of_row E fs self _ _ _ Hc Ht).
  cbn [decode_value_blob]. rewrite Hdec, Hloads. cbn [bind].
  unfold decode_error. rewrite Hcls_b, Hcls_t.
  repeat split; try reflexivity.
  - intros Heq. discriminate Heq.
  - apply raw_array_or_none_eq.
Qed.

(** On the database whose prompts are not UTF-8 and whose generations are
    not JSON. *)
Lemma decode_failures_on_two_keys :
  let two := Sample.open_db "/ws/two_failures/state.vscdb" in
  let encoding_failure :=
    fst (get_json_value_for_key Sample.externals Sample.files two
           "aiService.prompts") in
  let malformed_json :=
    fst (get_json_value_for_key Sample.externals Sample.files two
           "aiService.generations") in
  field encoding_failure "error" = PStr "UnicodeDecodeError"
  /\ field malformed_json "error" = PStr "JSONDecodeError"
  /\ encoding_failure <> malformed_json
  /\ raw_array_or_none encoding_failure = PNone
  /\ raw_array_or_none malformed_json = PNone
  /\ (forall decoded,
        raw_array_or_none decoded = if is_list decoded then decoded else PNone).
Proof.
  apply (decode_failures_by_kind Sample.externals Sample.files
           (Sample.open_db "/ws/two_failures/state.vscdb")
           "aiService.prompts" "aiService.generations"
           [xc3; x28] Sample.prompts_broken_text [] []
           (mkExn UnicodeDecodeError "'utf-8' codec can't decode bytes")
           (mkExn JSONDecodeError "Expecting value")).
  - reflexivity.
  - reflexivity.
  - reflexivity.
  - reflexivity.
  - reflexivity.
  - vm_compute. reflexivity.
  - reflexivity.
Defined.

(* ================================================================== *)
(** * A database that fails to decode, in a run over several *)
(* ================================================================== *)

(** C5, as stated, fails for two of the three fixed keys. In this database
    the prompts value is present and is not UTF-8, and the generations value
    is present and is not JSON; [query_all_chat_data] reads neither key and
    returns the empty list: no per-database error entry. *)
Lemma malformed_prompts_give_no_error_entry :
  let two := Sample.open_db "/ws/two_failures/state.vscdb" in
  field (fst (get_json_value_for_key Sample.externals Sample.files two
                "aiService.prompts")) "error" = PStr "UnicodeDecodeError"
  /\ field (fst (get_json_value_for_key Sample.externals Sample.files two
                   "aiService.generations")) "error" = PStr "JSONDecodeError"
  /\ query_all_chat_data Sample.externals Sample.files two
     = (Ok (PList []), two).
Proof.
  cbv zeta. repeat split; vm_compute; reflexivity.
Qed.

Section ExportFacts.

Variable E : Externals.
Variable X : ExportEnv.
Variable fs : FileSystem.
Variable cfg : Config.
Variable format_type : FormatType.

(** The export of a per-database error entry writes nothing and raises
    nothing. *)
Lemma export_error_entry (db_identifier message path : string) :
  export_sessions X format_type db_identifier [error_entry message path]
  = ([], None).
Proof. reflexivity. Qed.

(** A database that contributes nothing can be left out of the run. *)
Lemma export_loop_skips (before after : list string) (db_file : string) :
  export_database E X fs cfg format_type db_file = ([], None) ->
  export_loop E X fs cfg format_type (before ++ db_file :: after)
  = export_loop E X fs cfg format_type (before ++ after).
Proof.
  intros Hnothing. induction before as [|first rest IH].
  - cbn [app export_loop]. rewrite Hnothing.
    destruct (export_loop E X fs cfg format_type after). reflexivity.
  - cbn [app export_loop]. rewrite IH. reflexivity.
Qed.

(** The catalog on a metadata value that is present and fails to decode. *)
Lemma query_of_undecodable_metadata (path : string) (value : SqlValue)
  (others : list SqlValue) (e : PyExn) :
  db_connect (fs path) = None ->
  aichat_query_key cfg <> "" ->
  db_select (fs path) (cfg_table_name cfg) (aichat_query_key cfg)
  = Rows (value :: others) ->
  decode_value_blob E (aichat_query_key cfg) value = Raise e ->
  fst (query_all_chat_data E fs (__init__ fs cfg path))
  = Ok (PList [error_entry ("Metadata fetch failed: " ++ failure_kind e) path]).
Proof.
  intros Hopen Hkey Hrow Hdecode.
  set (self := __init__ fs cfg path).
  assert (Hself : self = {| db_path := path; config := cfg;
                            table_name := cfg_table_name cfg; conn := true |}).
  { unfold self, __init__, _initialize_connection. cbn. rewrite Hopen.
    reflexivity. }
  assert (Hc : conn self = true) by (rewrite Hself; reflexivity).
  assert (Hjson : fst (get_json_value_for_key E fs self (aichat_query_key cfg))
                  = decode_error (aichat_query_key cfg) e).
  { rewrite (get_json_value_of_row E fs self _ value others Hc).
    - rewrite Hdecode. destruct value; try reflexivity. discriminate Hdecode.
    - rewrite Hself. exact Hrow. }
  assert (Hmeta : fst (get_all_chat_sessions_metadata E fs self)
                  = decode_error (aichat_query_key cfg) e).
  { unfold get_all_chat_sessions_metadata. cbv zeta. rewrite Hc. cbn [negb].
    replace (config self) with cfg by (rewrite Hself; reflexivity).
    apply String.eqb_neq in Hkey. rewrite Hkey.
    destruct (get_json_value_for_key E fs self (aichat_query_key cfg))
      as [v self1]. cbn [fst] in Hjson. subst v. reflexivity. }
  rewrite query_all_chat_data_eq. cbv zeta. cbn [fst].
  rewrite (live_object_idem fs self Hc), Hc, Hmeta.
  rewrite Hself. reflexivity.
Qed.

End ExportFacts.

(** C5, amended. For every database whose session-metadata value is present
    but fails to decode, [query_all_chat_data] returns a one-element list
    holding a per-database error entry and does not raise; the export loop
    writes nothing for that database and goes on to the next one: the run
    is the run over the other databases, as if this one were not in the
    list. (The prompts and generations keys are not read by
    [query_all_chat_data].) *)
Theorem metadata_decode_failure_is_isolated
  (E : Externals) (X : ExportEnv) (fs : FileSystem) (cfg : Config)
  (format_type : FormatType) (path : string) (value : SqlValue)
  (others : list SqlValue) (e : PyExn) (before after : list string) :
  db_connect (fs path) = None ->
  aichat_query_key cfg <> "" ->
  db_select (fs path) (cfg_table_name cfg) (aichat_query_key cfg)
  = Rows (value :: others) ->
  decode_value_blob E (aichat_query_key cfg) value = Raise e ->
  fst (query_all_chat_data E fs (__init__ fs cfg path))
  = Ok (PList [error_entry ("Metadata fetch failed: " ++ failure_kind e) path])
  /\ export_database E X fs cfg format_type path = ([], None)
  /\ export_loop E X fs cfg format_type (before ++ path :: after)
     = export_loop E X fs cfg format_type (before ++ after).
Proof.
  intros Hopen Hkey Hrow Hdecode.
  pose proof (query_of_undecodable_metadata E fs cfg path value others e
                Hopen Hkey Hrow Hdecode) as Hquery.
  assert (Hdb : export_database E X fs cfg format_type path = ([], None)).
  { unfold export_database. cbv zeta. rewrite Hquery.
    cbn [py_truthy negb py_iter]. apply export_error_entry. }
  split; [exact Hquery | split; [exact Hdb |]].
  apply export_loop_skips. exact Hdb.
Qed.

(** A run over three databases, the second with metadata that is not JSON. *)
Lemma malformed_metadata_between_two_databases :
  fst (query_all_chat_data Sample.externals Sample.files
         (__init__ Sample.files default_config "/ws/bad_json/state.vscdb"))
  = Ok (PList [error_entry
                 ("Metadata fetch failed: "
                  ++ failure_kind (mkExn JSONDecodeError "Expecting value"))
                 "/ws/bad_json/state.vscdb"])
  /\ export_database Sample.externals Sample.export_env Sample.files
       default_config Md "/ws/bad_json/state.vscdb" = ([], None)
  /\ export_loop Sample.externals Sample.export_env Sample.files
       default_config Md
       (["/ws/empty/state.vscdb"]
        ++ "/ws/bad_json/state.vscdb" :: ["/ws/bad_utf8/state.vscdb"])
     = export_loop Sample.externals Sample.export_env Sample.files
         default_config Md
         (["/ws/empty/state.vscdb"] ++ ["/ws/bad_utf8/state.vscdb"]).
Proof.
  apply (metadata_decode_failure_is_isolated
           Sample.externals Sample.export_env Sample.files default_config Md
           "/ws/bad_json/state.vscdb"
           (SqlText ("{" ++ Sample.q "allComposers" ++ ": [")) []
           (mkExn JSONDecodeError "Expecting value")
           ["/ws/empty/state.vscdb"] ["/ws/bad_utf8/state.vscdb"]).
  - reflexivity.
  - discriminate.
  - reflexivity.
  - vm_compute. reflexivity.
Defined.

(** That run reaches its end: the loop passes the failed database and the
    one after it, and no exception ends it. *)
Example run_over_a_failed_database_completes :
  export_loop Sample.externals Sample.export_env Sample.files default_config Md
    ["/ws/empty/state.vscdb"; "/ws/bad_json/state.vscdb";
     "/ws/bad_utf8/state.vscdb"]
  = ([], None).
Proof. vm_compute. reflexivity. Qed.

(* ================================================================== *)
(** * The turns of a session *)
(* ================================================================== *)


(* ================================================================== *)
(** * Worked examples *)
(* ================================================================== *)

(** A file that cannot be opened. *)
Example unreadable_file_gives_one_error_entry :
  query_all_chat_data Sample.externals Sample.files
    (Sample.open_db "/ws/nowhere/state.vscdb")
  = (Ok (PList
           [error_entry
              "Failed to initialize DB connection for /ws/nowhere/state.vscdb"
              "/ws/nowhere/state.vscdb"]),
     Sample.open_db "/ws/nowhere/state.vscdb").
Proof. vm_compute. reflexivity. Qed.

(** The caller in [mcp_server.py] applies [.get] to the result: on a list
    that raises (the caller's own [except] turns it into an error dict). *)
Remark a_list_has_no_get (entries : list PyVal) (k : string) (default : PyVal) :
  py_get (PList entries) k default
  = Raise (mkExn AttributeError "'list' object has no attribute 'get'").
Proof. reflexivity. Qed.

(* ================================================================== *)
(** * What export and discover make of the result *)
(* ================================================================== *)

Section Consumers.

Variable E : Externals.
Variable X : ExportEnv.
Variable fs : FileSystem.
Variable cfg : Config.
Variable format_type : FormatType.

(** One database of the run: nothing is written; the loop goes on, or the
    [AttributeError] of the reader ends the run. *)
Lemma export_database_outcome (db_file : string) :
  export_database E X fs cfg format_type db_file = ([], None)
  \/ export_database E X fs cfg format_type db_file
     = ([], Some (no_attribute "get_chat_session_details")).
Proof.
  unfold export_database. cbv zeta.
  destruct (query_all_chat_data_outcome E fs (__init__ fs cfg db_file))
    as [(message & ->) | [-> | ->]].
  - left. reflexivity.
  - left. reflexivity.
  - right. reflexivity.
Qed.

Lemma export_database_writes_nothing (db_file : string) :
  fst (export_database E X fs cfg format_type db_file) = [].
Proof.
  destruct (export_database_outcome db_file) as [-> | ->]; reflexivity.
Qed.

End Consumers.

(** X1. [export] never writes a file, whatever the stores hold. It reads
    the turns from the top level of each entry [query_all_chat_data]
    returns, and no entry that comes back has a "turns" field: a
    per-database error entry is skipped, and for a database that lists a
    session the reader raises and the exception ends the run. *)
Theorem export_never_writes_a_file
  (E : Externals) (X : ExportEnv) (fs : FileSystem) (cfg : Config)
  (format_type : FormatType) (db_files : list string) :
  fst (export_loop E X fs cfg format_type db_files) = [].
Proof.
  induction db_files as [|db_file rest IH]; [reflexivity |].
  cbn [export_loop].
  pose proof (export_database_writes_nothing E X fs cfg format_type db_file)
    as Hdb.
  destruct (export_database E X fs cfg format_type db_file)
    as [written [e|]]; cbn [fst] in Hdb; subst written; [reflexivity |].
  destruct (export_loop E X fs cfg format_type rest) as [more failure].
  exact IH.
Qed.

Section DiscoverFacts.

Variable E : Externals.
Variable X : ExportEnv.
Variable fs : FileSystem.
Variable cfg : Config.

Lemma discover_from_db_counts_nothing (db_file : string) (found : Z) :
  discover_from_db E X fs cfg db_file = Ok found -> found = 0%Z.
Proof.
  unfold discover_from_db. cbv zeta.
  destruct (query_all_chat_data_outcome E fs (__init__ fs cfg db_file))
    as [(message & ->) | [-> | ->]].
  - cbn. intros H. injection H as <-. reflexivity.
  - cbn. intros H. injection H as <-. reflexivity.
  - discriminate.
Qed.

Lemma discover_loop_invariant (limit : Z) (db_files : list string)
  (total processed : Z) :
  let '(total', processed', failure) :=
    discover_loop E X fs cfg limit db_files total processed in
  let n := Z.of_nat (List.length db_files) in
  total' = total
  /\ (processed <= processed' <= processed + n)%Z
  /\ ((0 < limit)%Z -> (processed' <= Z.max processed limit)%Z)
  /\ (failure = None ->
      processed' = if (0 <? limit)%Z
                   then Z.max processed (Z.min limit (processed + n))
                   else (processed + n)%Z).
Proof.
  revert total processed.
  induction db_files as [|db_file rest IH]; intros total processed.
  - cbn [discover_loop List.length]. cbv beta iota zeta.
    change (Z.of_nat 0) with 0%Z.
    repeat split; try lia.
    intros _. destruct (0 <? limit)%Z; lia.
  - cbn [discover_loop].
    change (List.length (db_file :: rest)) with (S (List.length rest)).
    rewrite Nat2Z.inj_succ.
    destruct ((0 <? limit) && (limit <=? processed))%Z eqn:Hstop.
    + apply andb_true_iff in Hstop. destruct Hstop as [Hpos Hreached].
      apply Z.leb_le in Hreached.
      cbv beta iota zeta. rewrite Hpos. apply Z.ltb_lt in Hpos.
      repeat split; try lia.
    + destruct (discover_from_db E X fs cfg db_file) as [found|e] eqn:Hdb.
      * rewrite (discover_from_db_counts_nothing _ _ Hdb).
        specialize (IH (total + 0)%Z (processed + 1)%Z).
        destruct (discover_loop E X fs cfg limit rest (total + 0)
                    (processed + 1)) as [[total' processed'] failure].
        cbv beta iota zeta in IH |- *.
        destruct IH as (Ht & Hbounds & Hlimit & Hdone).
        apply andb_false_iff in Hstop.
        repeat split; try lia.
        -- intros Hnone. rewrite (Hdone Hnone).
           destruct (0 <? limit)%Z eqn:Hp; [| lia].
           destruct Hstop as [Hs|Hs]; [discriminate |].
           apply Z.leb_gt in Hs. lia.
      * cbv beta iota zeta.
        repeat split; try lia. discriminate.
Qed.

End DiscoverFacts.

(** X2. The loop of [discover] never finds a session with turns: it counts
    the turns at the top level of each entry that comes back, where there
    are none (and a database that lists a session ends the loop with the
    reader's exception), so the total stays 0. It processes at most [limit]
    databases when the limit is
    positive; when no exception ends it, it processes exactly the smaller of
    [limit] and the number of databases, and all of them when the limit is
    zero or negative. *)
Theorem discover_finds_nothing_within_limit
  (E : Externals) (X : ExportEnv) (fs : FileSystem) (cfg : Config)
  (limit : Z) (db_files : list string) :
  let '(total, processed, failure) :=
    discover_loop E X fs cfg limit db_files 0 0 in
  let n := Z.of_nat (List.length db_files) in
  total = 0%Z
  /\ (0 <= processed <= n)%Z
  /\ ((0 < limit)%Z -> (processed <= limit)%Z)
  /\ (failure = None ->
      processed = if (0 <? limit)%Z then Z.min limit n else n).
Proof.
  pose proof (discover_loop_invariant E X fs cfg limit db_files 0 0) as H.
  destruct (discover_loop E X fs cfg limit db_files 0 0)
    as [[total processed] failure].
  cbv beta iota zeta in H |- *. destruct H as (Ht & Hbounds & Hlimit & Hdone).
  repeat split; try lia.
  intros Hnone. rewrite (Hdone Hnone).
  destruct (0 <? limit)%Z eqn:Hp; [| lia].
  apply Z.ltb_lt in Hp. lia.
Qed.

(** A run of [discover] over three sample databases with the limit 2: two
    of the three are processed, nothing is found, nothing is raised. *)
Example discover_on_three_databases :
  discover_loop Sample.externals Sample.export_env Sample.files
    default_config 2
    ["/ws/bad_json/state.vscdb"; "/ws/empty/state.vscdb";
     "/ws/bad_utf8/state.vscdb"] 0 0
  = (0%Z, 2%Z, None).
Proof. vm_compute. reflexivity. Qed.

(** A database that lists a session ends the loop where it stands. *)
Example discover_stops_at_a_listed_session :
  discover_loop Sample.externals Sample.export_env Sample.files
    default_config 0
    ["/ws/empty/state.vscdb"; "/ws/scenario/state.vscdb";
     "/ws/bad_json/state.vscdb"] 0 0
  = (0%Z, 1%Z, Some (no_attribute "get_chat_session_details")).
Proof. vm_compute. reflexivity. Qed.

(** X3. When [export] searches for databases, it processes a prefix of the
    databases found: the first [limit_db] of them when the limit is
    positive, all of them when it is zero or negative. *)
Theorem limit_found_dbs_is_a_prefix (limit_db : Z) (found_dbs : list string) :
  (exists left_out, found_dbs = limit_found_dbs limit_db found_dbs ++ left_out)
  /\ Z.of_nat (List.length (limit_found_dbs limit_db found_dbs))
     = if (0 <? limit_db)%Z
       then Z.min limit_db (Z.of_nat (List.length found_dbs))
       else Z.of_nat (List.length found_dbs).
Proof.
  unfold limit_found_dbs.
  destruct (0 <? limit_db)%Z eqn:Hpos; cbn [andb].
  - apply Z.ltb_lt in Hpos.
    destruct (limit_db <? Z.of_nat (List.length found_dbs))%Z eqn:Hless.
    + apply Z.ltb_lt in Hless. split.
      * exists (skipn (Z.to_nat limit_db) found_dbs).
        symmetry. apply firstn_skipn.
      * rewrite length_firstn. lia.
    + apply Z.ltb_ge in Hless. split.
      * exists []. symmetry. apply app_nil_r.
      * lia.
  - split.
    + exists []. symmetry. apply app_nil_r.
    + reflexivity.
Qed.

(* ================================================================== *)
(** * Edge behaviour of the reader *)
(* ================================================================== *)

Section ReaderEdges.

Variable E : Externals.
Variable fs : FileSystem.

(** The catalog as a function of the decoded metadata value. *)
Lemma catalog_eq (self : VSCDBQuery) :
  conn self = true ->
  aichat_query_key (config self) <> "" ->
  fst (get_all_chat_sessions_metadata E fs self)
  = let blob :=
      fst (get_json_value_for_key E fs self (aichat_query_key (config self))) in
    if negb (py_truthy blob) || is_error_dict blob then blob
    else match parse_all_composers blob with
         | Ok sessions => PList sessions
         | Raise e =>
             error_entry
               (match exn_class e with
                | TypeError => "Unexpected composer metadata structure: "
                | _ => "Error parsing allComposers from metadata: "
                end ++ exn_msg e) (db_path self)
         end.
Proof.
  intros Hc Hkey. unfold get_all_chat_sessions_metadata. cbv zeta.
  rewrite Hc. cbn [negb]. apply String.eqb_neq in Hkey. rewrite Hkey.
  pose proof (get_json_value_for_key_keeps E fs self
                (aichat_query_key (config self)) Hc) as Hkeep.
  destruct (get_json_value_for_key E fs self (aichat_query_key (config self)))
    as [blob self1]. cbn [fst snd] in *. subst self1.
  destruct (negb (py_truthy blob) || is_error_dict blob); [reflexivity |].
  destruct (parse_all_composers blob) as [sessions|e]; [reflexivity |].
  destruct (exn_class e); reflexivity.
Qed.

(** The assembly when the catalog answers an error dict. *)
Lemma query_of_error_catalog (self : VSCDBQuery) :
  conn self = true ->
  is_error_dict (fst (get_all_chat_sessions_metadata E fs self)) = true ->
  fst (query_all_chat_data E fs self)
  = Ok (PList [error_entry
                 ("Metadata fetch failed: "
                  ++ format E
                       (field (fst (get_all_chat_sessions_metadata E fs self))
                          "error"))
                 (db_path self)]).
Proof.
  intros Hc Herr. rewrite query_all_chat_data_eq. cbv zeta. cbn [fst].
  rewrite (live_object_idem fs self Hc), Hc, Herr. reflexivity.
Qed.

(** The assembly when the catalog answers a falsy value. *)
Lemma query_of_falsy_catalog (self : VSCDBQuery) :
  conn self = true ->
  py_truthy (fst (get_all_chat_sessions_metadata E fs self)) = false ->
  fst (query_all_chat_data E fs self) = Ok (PList []).
Proof.
  intros Hc Hfalsy. rewrite query_all_chat_data_eq. cbv zeta. cbn [fst].
  rewrite (live_object_idem fs self Hc), Hc, Hfalsy. cbn [negb].
  destruct (is_error_dict _) eqn:Herr; [| reflexivity].
  apply error_dict_is_truthy in Herr. congruence.
Qed.

(** The loop stops at the first entry that is not an object. *)
Lemma collect_sessions_stops (good rest acc : list PyVal) (bad : PyVal) :
  Forall (fun c => is_dict c = true) good ->
  is_dict bad = false ->
  collect_sessions (good ++ bad :: rest) acc
  = Raise (mkExn AttributeError
             ("'" ++ type_name bad ++ "' object has no attribute 'get'")).
Proof.
  intros Hgood Hbad. revert acc.
  induction Hgood as [|c good' Hc _ IH]; intros acc.
  - cbn [app collect_sessions].
    destruct bad; try reflexivity. discriminate Hbad.
  - destruct (is_dict_inv c Hc) as [d ->].
    cbn [app]. rewrite collect_sessions_step. apply IH.
Qed.

Lemma reopened_object (self : VSCDBQuery) :
  conn self = false ->
  db_connect (fs (db_path self)) = None ->
  _initialize_connection fs self = set_conn self true.
Proof.
  intros _ Hopen. unfold _initialize_connection. rewrite Hopen. reflexivity.
Qed.

Lemma get_json_value_for_key_reopens (self : VSCDBQuery) (key_name : string) :
  conn self = false ->
  db_connect (fs (db_path self)) = None ->
  snd (get_json_value_for_key E fs self key_name) = set_conn self true.
Proof.
  intros Hc Hopen.
  pose proof (get_json_value_for_key_keeps E fs (set_conn self true) key_name
                eq_refl) as Hkeep.
  unfold get_json_value_for_key in *. cbv zeta in *.
  rewrite Hc. rewrite (reopened_object self Hc Hopen).
  cbn [conn set_conn] in *. exact Hkeep.
Qed.

End ReaderEdges.

(** X4. When the database file can be opened, [query_all_chat_data] ends
    the same way whether the object's connection was open or closed at the
    call: the same list returned, or the same exception raised. An open
    connection stays open. A closed one is closed again when the call
    returns, and is left open when the call raises. *)
Theorem query_result_ignores_connection_state
  (E : Externals) (fs : FileSystem) (self : VSCDBQuery) :
  db_connect (fs (db_path self)) = None ->
  let closed := query_all_chat_data E fs (set_conn self false) in
  let opened := query_all_chat_data E fs (set_conn self true) in
  fst closed = fst opened
  /\ conn (snd opened) = true
  /\ conn (snd closed)
     = match fst closed with Ok _ => false | Raise _ => true end.
Proof.
  intros Hopen. cbv zeta. rewrite !query_all_chat_data_eq. cbv zeta.
  unfold live_object, _initialize_connection.
  cbn [conn set_conn db_path]. rewrite Hopen. cbn [conn set_conn negb].
  destruct (is_error_dict _); [repeat split |].
  destruct (negb (py_truthy _)); repeat split.
Qed.

(** On the scenario database, which lists a session: both calls raise, and
    the closed object is left open. *)
Lemma connection_state_ignored_on_the_scenario :
  let self := Sample.open_db "/ws/scenario/state.vscdb" in
  let closed :=
    query_all_chat_data Sample.externals Sample.files (set_conn self false) in
  let opened :=
    query_all_chat_data Sample.externals Sample.files (set_conn self true) in
  fst closed = fst opened
  /\ conn (snd opened) = true
  /\ conn (snd closed)
     = match fst closed with Ok _ => false | Raise _ => true end.
Proof.
  apply (query_result_ignores_connection_state Sample.externals Sample.files
           (Sample.open_db "/ws/scenario/state.vscdb")).
  reflexivity.
Defined.

(** The two endings, on a database without sessions and on one with. *)
Example closed_object_after_the_call :
  conn (snd (query_all_chat_data Sample.externals Sample.files
               (close_connection (Sample.open_db "/ws/empty/state.vscdb"))))
  = false
  /\ conn (snd (query_all_chat_data Sample.externals Sample.files
                  (close_connection
                     (Sample.open_db "/ws/scenario/state.vscdb"))))
     = true.
Proof. split; vm_compute; reflexivity. Qed.

(** X5. On an object whose connection is closed, over a file that can be
    opened: [get_json_value_for_key] and the two loaders built on it open
    the connection again and leave it open, while
    [get_all_chat_sessions_metadata] does not reopen it: it answers the
    error dict "DB connection not active for metadata retrieval" without
    reading the store, and leaves the object closed. *)
Theorem closed_object_reopened_by_key_reads_only
  (E : Externals) (fs : FileSystem) (self : VSCDBQuery) (key_name : string) :
  conn self = false ->
  db_connect (fs (db_path self)) = None ->
  conn (snd (get_json_value_for_key E fs self key_name)) = true
  /\ conn (snd (get_all_prompts_raw E fs self)) = true
  /\ conn (snd (get_all_generations_raw E fs self)) = true
  /\ get_all_chat_sessions_metadata E fs self
     = (PDict [("error",
                PStr "DB connection not active for metadata retrieval")],
        self).
Proof.
  intros Hc Hopen. repeat split.
  - rewrite (get_json_value_for_key_reopens E fs self key_name Hc Hopen).
    reflexivity.
  - unfold get_all_prompts_raw.
    pose proof (get_json_value_for_key_reopens E fs self
                  (prompts_key (config self)) Hc Hopen) as H.
    destruct (get_json_value_for_key E fs self (prompts_key (config self))).
    cbn [snd] in *. rewrite H. reflexivity.
  - unfold get_all_generations_raw.
    pose proof (get_json_value_for_key_reopens E fs self
                  (generations_key (config self)) Hc Hopen) as H.
    destruct (get_json_value_for_key E fs self (generations_key (config self))).
    cbn [snd] in *. rewrite H. reflexivity.
  - unfold get_all_chat_sessions_metadata. rewrite Hc. reflexivity.
Qed.

(** On the scenario database, after [close_connection]. *)
Lemma closed_scenario_object :
  let self := close_connection (Sample.open_db "/ws/scenario/state.vscdb") in
  conn (snd (get_json_value_for_key Sample.externals Sample.files self
               "aiService.prompts")) = true
  /\ conn (snd (get_all_prompts_raw Sample.externals Sample.files self)) = true
  /\ conn (snd (get_all_generations_raw Sample.externals Sample.files self))
     = true
  /\ get_all_chat_sessions_metadata Sample.externals Sample.files self
     = (PDict [("error",
                PStr "DB connection not active for metadata retrieval")],
        self).
Proof.
  apply (closed_object_reopened_by_key_reads_only Sample.externals Sample.files
           (close_connection (Sample.open_db "/ws/scenario/state.vscdb"))
           "aiService.prompts").
  - reflexivity.
  - reflexivity.
Defined.

(** X6. Whatever the store holds, when [get_all_chat_sessions_metadata]
    returns a list, every element of it is a dict with exactly the keys
    composerId, name, lastUpdatedAt, createdAt, in that order, whose
    composerId and name are both non-empty. *)
Theorem catalog_sessions_are_well_formed
  (E : Externals) (fs : FileSystem) (self : VSCDBQuery)
  (sessions : list PyVal) :
  fst (get_all_chat_sessions_metadata E fs self) = PList sessions ->
  Forall (fun session =>
            exists d,
              session = PDict d
              /\ map fst d
                 = ["composerId"; "name"; "lastUpdatedAt"; "createdAt"]
              /\ has_id_and_title session = true) sessions.
Proof.
  unfold get_all_chat_sessions_metadata. cbv zeta.
  destruct (conn self); cbn [negb]; [| discriminate].
  destruct (aichat_query_key (config self) =? ""); [discriminate |].
  destruct (get_json_value_for_key E fs self (aichat_query_key (config self)))
    as [blob self1].
  destruct (negb (py_truthy blob) || is_error_dict blob) eqn:Hb.
  - cbn [fst]. intros ->. cbn [is_error_dict] in Hb.
    rewrite orb_false_r in Hb. apply negb_true_iff in Hb.
    destruct sessions; [constructor | discriminate].
  - destruct (parse_all_composers blob) as [found|e] eqn:Hp.
    + cbn [fst]. intros H. injection H as <-.
      destruct (parse_all_composers_returns _ _ Hp) as (cs & _ & ->).
      apply Forall_forall. intros session Hin.
      apply in_map_iff in Hin. destruct Hin as (c & <- & Hin).
      apply filter_In in Hin. destruct Hin as [_ Hkept].
      eexists. split; [reflexivity |]. split; [reflexivity |].
      rewrite has_id_and_title_descriptor. exact Hkept.
    + destruct (exn_class e); discriminate.
Qed.

(** On the scenario database. *)
Lemma scenario_sessions_are_well_formed :
  Forall (fun session =>
            exists d,
              session = PDict d
              /\ map fst d
                 = ["composerId"; "name"; "lastUpdatedAt"; "createdAt"]
              /\ has_id_and_title session = true)
    [descriptor_of (PDict [("composerId", PStr "a"); ("name", PStr "Foo")])].
Proof.
  apply (catalog_sessions_are_well_formed Sample.externals Sample.files
           (Sample.open_db "/ws/scenario/state.vscdb")).
  vm_compute. reflexivity.
Defined.

(** X7. One [allComposers] entry that is not an object spoils the whole
    catalog: [get_all_chat_sessions_metadata] answers an error dict naming
    the type of the first such entry, the sessions before and after it are
    lost, and [query_all_chat_data] reports one "Metadata fetch failed"
    entry for the database. *)
Theorem non_object_entry_fails_the_catalog
  (E : Externals) (fs : FileSystem) (self : VSCDBQuery)
  (blob : list (string * PyVal)) (good rest : list PyVal) (bad : PyVal) :
  conn self = true ->
  aichat_query_key (config self) <> "" ->
  fst (get_json_value_for_key E fs self (aichat_query_key (config self)))
  = PDict blob ->
  dict_has blob "error" = false ->
  dict_get blob "allComposers" = Some (PList (good ++ bad :: rest)) ->
  Forall (fun c => is_dict c = true) good ->
  is_dict bad = false ->
  let complaint :=
    ("Error parsing allComposers from metadata: '" ++ type_name bad
     ++ "' object has no attribute 'get'")%string in
  fst (get_all_chat_sessions_metadata E fs self)
  = error_entry complaint (db_path self)
  /\ fst (query_all_chat_data E fs self)
     = Ok (PList [error_entry ("Metadata fetch failed: " ++ complaint)
                    (db_path self)]).
Proof.
  intros Hc Hkey Hblob Herr Hall Hgood Hbad. cbv zeta.
  assert (Hcat : fst (get_all_chat_sessions_metadata E fs self)
                 = error_entry
                     ("Error parsing allComposers from metadata: '"
                      ++ type_name bad ++ "' object has no attribute 'get'")
                     (db_path self)).
  { rewrite (catalog_eq E fs self Hc Hkey). cbv zeta. rewrite Hblob.
    assert (Htruthy : py_truthy (PDict blob) = true)
      by (destruct blob; [discriminate Hall | reflexivity]).
    rewrite Htruthy. cbn [negb orb is_error_dict]. rewrite Herr.
    unfold parse_all_composers. cbn [py_get]. rewrite Hall.
    cbn [bind py_iter]. rewrite (collect_sessions_stops good rest [] bad Hgood Hbad).
    reflexivity. }
  split; [exact Hcat |].
  rewrite (query_of_error_catalog E fs self Hc); rewrite Hcat; reflexivity.
Qed.

(** On a list of two named sessions with the number 7 between them. *)
Lemma number_between_two_sessions :
  let self := Edge.open_db "/ws/number_entry/state.vscdb" in
  let complaint :=
    ("Error parsing allComposers from metadata: '" ++ type_name (PInt 7)
     ++ "' object has no attribute 'get'")%string in
  fst (get_all_chat_sessions_metadata Sample.externals Edge.files self)
  = error_entry complaint (db_path self)
  /\ fst (query_all_chat_data Sample.externals Edge.files self)
     = Ok (PList [error_entry ("Metadata fetch failed: " ++ complaint)
                    (db_path self)]).
Proof.
  apply (non_object_entry_fails_the_catalog Sample.externals Edge.files
           (Edge.open_db "/ws/number_entry/state.vscdb")
           [("allComposers",
             PList ([PDict [("composerId", PStr "a"); ("name", PStr "Foo")]]
                    ++ PInt 7
                    :: [PDict [("composerId", PStr "b");
                               ("name", PStr "Bar")]]))]
           [PDict [("composerId", PStr "a"); ("name", PStr "Foo")]]
           [PDict [("composerId", PStr "b"); ("name", PStr "Bar")]]
           (PInt 7)).
  - reflexivity.
  - discriminate.
  - vm_compute. reflexivity.
  - reflexivity.
  - reflexivity.
  - repeat constructor.
  - reflexivity.
Defined.

(** X8. A metadata document that is not empty and not a JSON object (an
    array, a string, a number, [true]) makes the catalog answer the error
    dict "Error parsing allComposers from metadata: 'T' object has no
    attribute 'get'", T being the Python type of the document. *)
Theorem document_that_is_not_an_object
  (E : Externals) (fs : FileSystem) (self : VSCDBQuery) (document : PyVal) :
  conn self = true ->
  aichat_query_key (config self) <> "" ->
  fst (get_json_value_for_key E fs self (aichat_query_key (config self)))
  = document ->
  py_truthy document = true ->
  is_dict document = false ->
  fst (get_all_chat_sessions_metadata E fs self)
  = error_entry
      ("Error parsing allComposers from metadata: '" ++ type_name document
       ++ "' object has no attribute 'get'") (db_path self).
Proof.
  intros Hc Hkey Hdoc Htruthy Hshape.
  rewrite (catalog_eq E fs self Hc Hkey). cbv zeta. rewrite Hdoc, Htruthy.
  destruct document; try discriminate Hshape; reflexivity.
Qed.

(** On a metadata document that is an array. *)
Lemma array_document_fails_the_catalog :
  fst (get_all_chat_sessions_metadata Sample.externals Edge.files
         (Edge.open_db "/ws/array_document/state.vscdb"))
  = error_entry
      ("Error parsing allComposers from metadata: '"
       ++ type_name
            (PList [PDict [("composerId", PStr "a"); ("name", PStr "Foo")]])
       ++ "' object has no attribute 'get'")
      (db_path (Edge.open_db "/ws/array_document/state.vscdb")).
Proof.
  apply (document_that_is_not_an_object Sample.externals Edge.files
           (Edge.open_db "/ws/array_document/state.vscdb")
           (PList [PDict [("composerId", PStr "a"); ("name", PStr "Foo")]])).
  - reflexivity.
  - discriminate.
  - vm_compute. reflexivity.
  - reflexivity.
  - reflexivity.
Defined.

(** X9. An [allComposers] field that is present but not iterable ([null],
    a number, a boolean) is not read as "no sessions", as an absent field
    is: the catalog answers the error dict "Unexpected composer metadata
    structure: 'T' object is not iterable". *)
Theorem all_composers_that_is_not_iterable
  (E : Externals) (fs : FileSystem) (self : VSCDBQuery)
  (blob : list (string * PyVal)) (all_composers : PyVal) (e : PyExn) :
  conn self = true ->
  aichat_query_key (config self) <> "" ->
  fst (get_json_value_for_key E fs self (aichat_query_key (config self)))
  = PDict blob ->
  dict_has blob "error" = false ->
  dict_get blob "allComposers" = Some all_composers ->
  py_iter all_composers = Raise e ->
  fst (get_all_chat_sessions_metadata E fs self)
  = error_entry
      ("Unexpected composer metadata structure: '" ++ type_name all_composers
       ++ "' object is not iterable") (db_path self).
Proof.
  intros Hc Hkey Hblob Herr Hall Hiter.
  rewrite (catalog_eq E fs self Hc Hkey). cbv zeta. rewrite Hblob.
  assert (Htruthy : py_truthy (PDict blob) = true)
    by (destruct blob; [discriminate Hall | reflexivity]).
  rewrite Htruthy. cbn [negb orb is_error_dict]. rewrite Herr.
  unfold parse_all_composers. cbn [py_get]. rewrite Hall. cbn [bind].
  destruct all_composers; try discriminate Hiter; reflexivity.
Qed.

(** On a metadata object whose [allComposers] is [null]. *)
Lemma null_all_composers_fails_the_catalog :
  fst (get_all_chat_sessions_metadata Sample.externals Edge.files
         (Edge.open_db "/ws/null_composers/state.vscdb"))
  = error_entry
      ("Unexpected composer metadata structure: '" ++ type_name PNone
       ++ "' object is not iterable")
      (db_path (Edge.open_db "/ws/null_composers/state.vscdb")).
Proof.
  apply (all_composers_that_is_not_iterable Sample.externals Edge.files
           (Edge.open_db "/ws/null_composers/state.vscdb")
           [("allComposers", PNone)] PNone
           (mkExn TypeError "'NoneType' object is not iterable")).
  - reflexivity.
  - discriminate.
  - vm_compute. reflexivity.
  - reflexivity.
  - reflexivity.
  - reflexivity.
Defined.

(** X10. A metadata object that happens to have a top-level "error" field
    is taken for an error report: the catalog hands the object back as it
    is, and [query_all_chat_data] answers one "Metadata fetch failed" entry
    quoting the field, whatever sessions [allComposers] lists. *)
Theorem error_field_is_read_as_a_failure
  (E : Externals) (fs : FileSystem) (self : VSCDBQuery)
  (blob : list (string * PyVal)) (report : PyVal) :
  conn self = true ->
  aichat_query_key (config self) <> "" ->
  fst (get_json_value_for_key E fs self (aichat_query_key (config self)))
  = PDict blob ->
  dict_get blob "error" = Some report ->
  fst (get_all_chat_sessions_metadata E fs self) = PDict blob
  /\ fst (query_all_chat_data E fs self)
     = Ok (PList [error_entry ("Metadata fetch failed: " ++ format E report)
                    (db_path self)]).
Proof.
  intros Hc Hkey Hblob Hreport.
  assert (Herr : is_error_dict (PDict blob) = true)
    by (cbn; unfold dict_has; rewrite Hreport; reflexivity).
  assert (Hcat : fst (get_all_chat_sessions_metadata E fs self) = PDict blob).
  { rewrite (catalog_eq E fs self Hc Hkey). cbv zeta. rewrite Hblob, Herr.
    rewrite orb_true_r. reflexivity. }
  split; [exact Hcat |].
  rewrite (query_of_error_catalog E fs self Hc); rewrite Hcat;
    [| exact Herr].
  cbn [field]. rewrite Hreport. reflexivity.
Qed.

(** On a metadata object with an "error" field and one named session. *)
Lemma stale_error_field_hides_a_session :
  let self := Edge.open_db "/ws/error_field/state.vscdb" in
  let blob :=
    [("error", PStr "stale");
     ("allComposers",
      PList [PDict [("composerId", PStr "a"); ("name", PStr "Foo")]])] in
  fst (get_all_chat_sessions_metadata Sample.externals Edge.files self)
  = PDict blob
  /\ fst (query_all_chat_data Sample.externals Edge.files self)
     = Ok (PList [error_entry
                    ("Metadata fetch failed: "
                     ++ format Sample.externals (PStr "stale"))
                    (db_path self)]).
Proof.
  apply (error_field_is_read_as_a_failure Sample.externals Edge.files
           (Edge.open_db "/ws/error_field/state.vscdb")
           [("error", PStr "stale");
            ("allComposers",
             PList [PDict [("composerId", PStr "a"); ("name", PStr "Foo")]])]
           (PStr "stale")).
  - reflexivity.
  - discriminate.
  - vm_compute. reflexivity.
  - reflexivity.
Defined.

(** X11. A metadata document that decodes to an empty value of any type
    (the empty object, the empty array, the empty string, zero, [false],
    [null]) means "no sessions": the catalog hands the value back as it
    is, and [query_all_chat_data] returns the empty list. *)
Theorem empty_document_means_no_sessions
  (E : Externals) (fs : FileSystem) (self : VSCDBQuery) (document : PyVal) :
  conn self = true ->
  aichat_query_key (config self) <> "" ->
  fst (get_json_value_for_key E fs self (aichat_query_key (config self)))
  = document ->
  py_truthy document = false ->
  fst (get_all_chat_sessions_metadata E fs self) = document
  /\ fst (query_all_chat_data E fs self) = Ok (PList []).
Proof.
  intros Hc Hkey Hdoc Hfalsy.
  assert (Hcat : fst (get_all_chat_sessions_metadata E fs self) = document).
  { rewrite (catalog_eq E fs self Hc Hkey). cbv zeta.
    rewrite Hdoc, Hfalsy. reflexivity. }
  split; [exact Hcat |].
  apply query_of_falsy_catalog; [exact Hc | rewrite Hcat; exact Hfalsy].
Qed.

(** On a metadata document that is the empty object. *)
Lemma empty_object_means_no_sessions :
  fst (get_all_chat_sessions_metadata Sample.externals Edge.files
         (Edge.open_db "/ws/empty_object/state.vscdb")) = PDict []
  /\ fst (query_all_chat_data Sample.externals Edge.files
            (Edge.open_db "/ws/empty_object/state.vscdb")) = Ok (PList []).
Proof.
  apply (empty_document_means_no_sessions Sample.externals Edge.files
           (Edge.open_db "/ws/empty_object/state.vscdb") (PDict [])).
  - reflexivity.
  - discriminate.
  - vm_compute. reflexivity.
  - reflexivity.
Defined.

(** X12. A metadata column that holds neither text nor bytes: NULL reads as
    an absent key ([None], hence no sessions); an INTEGER or a REAL gives
    the error dict "UnexpectedValueType" and one "Metadata fetch failed"
    entry. In neither case is anything decoded. *)
Theorem metadata_column_that_is_not_text
  (E : Externals) (fs : FileSystem) (self : VSCDBQuery)
  (value : SqlValue) (others : list SqlValue) :
  conn self = true ->
  aichat_query_key (config self) <> "" ->
  db_select (fs (db_path self)) (table_name self)
    (aichat_query_key (config self)) = Rows (value :: others) ->
  (forall text, value <> SqlText text) ->
  (forall b, value <> SqlBlob b) ->
  fst (get_json_value_for_key E fs self (aichat_query_key (config self)))
  = match value with
    | SqlNull => PNone
    | _ => PDict [("error", PStr "UnexpectedValueType");
                  ("details", PStr ("Expected bytes or str, got "
                                    ++ sql_class_repr value));
                  ("key_name", PStr (aichat_query_key (config self)))]
    end
  /\ fst (query_all_chat_data E fs self)
     = Ok (PList match value with
                 | SqlNull => []
                 | _ => [error_entry
                           "Metadata fetch failed: UnexpectedValueType"
                           (db_path self)]
                 end).
Proof.
  intros Hc Hkey Hrow Htext Hblob.
  pose proof (get_json_value_of_row E fs self _ value others Hc Hrow) as Hjson.
  pose proof (catalog_eq E fs self Hc Hkey) as Hcat. cbv zeta in Hcat.
  rewrite Hjson in Hcat.
  destruct value as [|z|bits|text|b].
  - split; [exact Hjson |].
    apply query_of_falsy_catalog; [exact Hc | rewrite Hcat; reflexivity].
  - split; [exact Hjson |].
    rewrite (query_of_error_catalog E fs self Hc); rewrite Hcat; reflexivity.
  - split; [exact Hjson |].
    rewrite (query_of_error_catalog E fs self Hc); rewrite Hcat; reflexivity.
  - exfalso. apply (Htext text). reflexivity.
  - exfalso. apply (Hblob b). reflexivity.
Qed.

(** On a metadata column that holds the INTEGER 7. *)
Lemma integer_metadata_column :
  let self := Edge.open_db "/ws/integer_value/state.vscdb" in
  fst (get_json_value_for_key Sample.externals Edge.files self
         (aichat_query_key (config self)))
  = PDict [("error", PStr "UnexpectedValueType");
           ("details", PStr ("Expected bytes or str, got "
                             ++ sql_class_repr (SqlInteger 7)));
           ("key_name", PStr (aichat_query_key (config self)))]
  /\ fst (query_all_chat_data Sample.externals Edge.files self)
     = Ok (PList [error_entry "Metadata fetch failed: UnexpectedValueType"
                    (db_path self)]).
Proof.
  apply (metadata_column_that_is_not_text Sample.externals Edge.files
           (Edge.open_db "/ws/integer_value/state.vscdb") (SqlInteger 7) []).
  - reflexivity.
  - discriminate.
  - reflexivity.
  - discriminate.
  - discriminate.
Defined.

(** X13. When the query for the metadata key raises, nothing is raised to
    the caller: [query_all_chat_data] answers one entry
    "Metadata fetch failed: " followed by the message of the exception,
    which for an exception that is not an [sqlite3.Error] is prefixed with
    "Unexpected query error: ". *)
Theorem query_error_becomes_an_error_entry
  (E : Externals) (fs : FileSystem) (self : VSCDBQuery) (e : PyExn) :
  conn self = true ->
  aichat_query_key (config self) <> "" ->
  db_select (fs (db_path self)) (table_name self)
    (aichat_query_key (config self)) = QueryRaises e ->
  fst (query_all_chat_data E fs self)
  = Ok (PList [error_entry
                 ("Metadata fetch failed: "
                  ++ (if is_sqlite_error e then exn_msg e
                      else "Unexpected query error: " ++ exn_msg e))
                 (db_path self)]).
Proof.
  intros Hc Hkey Hraise.
  assert (Hjson :
            fst (get_json_value_for_key E fs self
                   (aichat_query_key (config self)))
            = error_entry
                (if is_sqlite_error e then exn_msg e
                 else "Unexpected query error: " ++ exn_msg e)
                (db_path self)).
  { unfold get_json_value_for_key, _execute_query. cbv zeta.
    rewrite !Hc. cbn [negb]. rewrite Hraise.
    destruct (is_sqlite_error e); reflexivity. }
  pose proof (catalog_eq E fs self Hc Hkey) as Hcat. cbv zeta in Hcat.
  rewrite Hjson in Hcat. cbn in Hcat.
  rewrite (query_of_error_catalog E fs self Hc); rewrite Hcat; reflexivity.
Qed.

(** On a file that has no [ItemTable]. *)
Lemma missing_table_becomes_an_error_entry :
  let self := Edge.open_db "/ws/no_table/state.vscdb" in
  let e := mkExn SqliteOperationalError "no such table: ItemTable" in
  fst (query_all_chat_data Sample.externals Edge.files self)
  = Ok (PList [error_entry
                 ("Metadata fetch failed: "
                  ++ (if is_sqlite_error e then exn_msg e
                      else "Unexpected query error: " ++ exn_msg e))
                 (db_path self)]).
Proof.
  apply (query_error_becomes_an_error_entry Sample.externals Edge.files
           (Edge.open_db "/ws/no_table/state.vscdb")
           (mkExn SqliteOperationalError "no such table: ItemTable")).
  - reflexivity.
  - discriminate.
  - reflexivity.
Defined.

(* ================================================================== *)
(** * The tools of mcp_server.py *)
(* ================================================================== *)

(** X14. [export_chat_session] never returns a session: its answer is
    always an error dict. When the database file exists, the reader either
    hands it a list, on which the tool calls [.get], or raises at line 384
    of [vscdb.py]; both [AttributeError]s are caught and their text is the
    answer, whatever the store holds and whichever session is asked for.
    When the file does not exist the answer is the "Database file not
    found" dict. *)
Theorem export_chat_session_never_returns_a_session
  (E : Externals) (M : McpEnv) (fs : FileSystem) (cfg : Config)
  (db_identifier session_id : string) :
  let db_file_path := get_db_path M db_identifier None in
  let query_instance := __init__ fs cfg (parent_dir M db_file_path) in
  export_chat_session E M fs cfg db_identifier session_id
  = if path_exists M db_file_path
    then PDict [("error",
                 PStr match fst (query_all_chat_data E fs query_instance) with
                      | Ok _ => "'list' object has no attribute 'get'"
                      | Raise _ =>
                          "'VSCDBQuery' object has no attribute 'get_chat_session_details'"
                      end)]
    else PDict [("error", PStr "Database file not found");
                ("path", PStr db_file_path)].
Proof.
  cbv zeta. unfold export_chat_session. cbv zeta.
  destruct (path_exists M (get_db_path M db_identifier None));
    cbn [negb]; [| reflexivity].
  unfold export_chat_session_body. cbv zeta.
  destruct (query_all_chat_data_outcome E fs
              (__init__ fs cfg
                 (parent_dir M (get_db_path M db_identifier None))))
    as [(message & ->) | [-> | ->]]; reflexivity.
Qed.

(** On the scenario database under the project's data directory, whose
    directory is no database; and with an identifier that makes the reader
    open the scenario database. *)
Example export_chat_session_on_the_scenario :
  export_chat_session Sample.externals Edge.mcp_env Sample.files
    default_config "scenario" "a"
  = PDict [("error", PStr "'list' object has no attribute 'get'")]
  /\ export_chat_session Sample.externals Edge.uri_env Edge.uri_files
       default_config Edge.uri_identifier "a"
     = PDict [("error",
               PStr "'VSCDBQuery' object has no attribute 'get_chat_session_details'")].
Proof. split; vm_compute; reflexivity. Qed.

(** X15. [list_sessions] builds its reader on the directory of the database
    file. When that directory cannot be opened as a database, the tool
    answers the bare error dict of the catalog, "DB connection not active
    for metadata retrieval": a dictionary, not the list of dictionaries it
    announces. *)
Theorem list_sessions_answers_a_bare_dict
  (E : Externals) (M : McpEnv) (fs : FileSystem) (cfg : Config)
  (db_identifier : string) (e : PyExn) :
  path_exists M (get_db_path M db_identifier None) = true ->
  db_connect (fs (parent_dir M (get_db_path M db_identifier None))) = Some e ->
  list_sessions E M fs cfg db_identifier
  = PDict [("error", PStr "DB connection not active for metadata retrieval")].
Proof.
  intros Hexists Hfail. unfold list_sessions. cbv zeta.
  rewrite Hexists. cbn [negb].
  unfold __init__, _initialize_connection. cbn [db_path]. rewrite Hfail.
  reflexivity.
Qed.

(** On the scenario database under the project's data directory, whose
    directory is no database. *)
Lemma list_sessions_on_the_scenario_directory :
  list_sessions Sample.externals Edge.mcp_env Sample.files default_config
    "scenario"
  = PDict [("error", PStr "DB connection not active for metadata retrieval")].
Proof.
  apply (list_sessions_answers_a_bare_dict Sample.externals Edge.mcp_env
           Sample.files default_config "scenario"
           (mkExn SqliteOperationalError "unable to open database file")).
  - reflexivity.
  - reflexivity.
Defined.

(** X16. Without a base path (absent or empty), [get_db_path] always
    resolves under the project's own "data" directory, whether that
    directory exists or not: the fallback to the Cursor workspace calls
    [get_cursor_workspace_path] with a keyword it does not accept, and the
    [TypeError] sends the code back to "data". *)
Theorem get_db_path_stays_under_data (M : McpEnv) (db_identifier : string) :
  let under_data :=
    joinpath M (joinpath M (joinpath M (project_root M) "data") db_identifier)
      "state.vscdb" in
  get_db_path M db_identifier None = under_data
  /\ get_db_path M db_identifier (Some "") = under_data.
Proof.
  cbv zeta. unfold get_db_path. cbv zeta. cbn [String.eqb].
  destruct (path_exists M (joinpath M (project_root M) "data"));
    split; reflexivity.
Qed.

(* ================================================================== *)
(** * The configuration *)
(* ================================================================== *)

(** X17. [_load_config] always returns a dictionary with exactly the four
    keys. It is the dictionary of defaults when [config.yml] is missing,
    fails to parse, raises anything else, or parses to something that is
    not a mapping; a value the file gives a key, [null] included, is kept
    as it is and not replaced by the default. *)
Theorem load_config_has_the_four_keys (file : ConfigFile) :
  map fst (_load_config file)
  = ["aichat_query_key"; "prompts_key"; "generations_key"; "table_name"]
  /\ ((forall d, file <> ConfigParsed (PDict d)) ->
      _load_config file = config_defaults)
  /\ (forall d k v,
        file = ConfigParsed (PDict d) ->
        dict_get d k = Some v ->
        dict_has config_defaults k = true ->
        dict_get (_load_config file) k = Some v).
Proof.
  split; [| split].
  - destruct file as [| | |config_data]; try reflexivity.
    destruct config_data; reflexivity.
  - intros Hother. destruct file as [| | |config_data]; try reflexivity.
    destruct config_data; try reflexivity.
    exfalso. apply (Hother entries). reflexivity.
  - intros d k v -> Hv Hk.
    unfold _load_config, read_config. cbn [py_get bind].
    unfold dict_has in Hk. cbn [config_defaults dict_get] in Hk.
    cbn [dict_get].
    destruct ("aichat_query_key" =? k) eqn:H1.
    { apply String.eqb_eq in H1. subst k. rewrite Hv. reflexivity. }
    destruct ("prompts_key" =? k) eqn:H2.
    { apply String.eqb_eq in H2. subst k. rewrite Hv. reflexivity. }
    destruct ("generations_key" =? k) eqn:H3.
    { apply String.eqb_eq in H3. subst k. rewrite Hv. reflexivity. }
    destruct ("table_name" =? k) eqn:H4.
    { apply String.eqb_eq in H4. subst k. rewrite Hv. reflexivity. }
    discriminate Hk.
Qed.

(** A [config.yml] that sets one key to [null] and omits the others. *)
Example load_config_keeps_an_explicit_null :
  _load_config (ConfigParsed (PDict [("aichat_query_key", PNone)]))
  = [("aichat_query_key", PNone);
     ("prompts_key", PStr "aiService.prompts");
     ("generations_key", PStr "aiService.generations");
     ("table_name", PStr "ItemTable")].
Proof. reflexivity. Qed.

(* ================================================================== *)
(** * How the assembly ends *)
(* ================================================================== *)


(** The three endings on sample databases: a file that cannot be opened, a
    database without the metadata key, and the scenario database. *)
Example three_endings :
  fst (query_all_chat_data Sample.externals Sample.files
         (Sample.open_db "/ws/nowhere/state.vscdb"))
  = Ok (PList [error_entry
                 "Failed to initialize DB connection for /ws/nowhere/state.vscdb"
                 "/ws/nowhere/state.vscdb"])
  /\ fst (query_all_chat_data Sample.externals Sample.files
            (Sample.open_db "/ws/empty/state.vscdb")) = Ok (PList [])
  /\ fst (query_all_chat_data Sample.externals Sample.files
            (Sample.open_db "/ws/scenario/state.vscdb"))
     = Raise (no_attribute "get_chat_session_details").
Proof. repeat split; vm_compute; reflexivity. Qed.
